(** * clip2drive: clipboard-to-Drive uploader (index.js)

    A shallow embedding of [index.js] and the properties of its
    normalisation step, its file-name generator, its OAuth callback
    listener and its upload pipeline.

    JavaScript strings are sequences of UTF-16 code units; they are
    modelled as lists of [N].  Side effects (console, clipboard, token
    file, HTTP listener, network calls) are modelled by a state monad
    whose outcomes distinguish normal completion, a thrown exception,
    [process.exit], an exception escaping an event callback and a
    promise that never settles.  Everything the program obtains from
    the outside (libraries, services, the clock) is a field of a
    [World] record. *)

From Stdlib Require Import List NArith ZArith QArith Bool Ascii String Lia.
From Stdlib Require Decimal DecimalString.
Import ListNotations.

Set Warnings "-register-all".
Local Open Scope N_scope.
Local Open Scope list_scope.

(* ================================================================== *)
(** ** JavaScript strings *)
(* ================================================================== *)

Module JsString.

(** A UTF-16 code unit. *)
Definition char16 := N.

Definition jsstring := list char16.

(** An ASCII literal of the source, as code units. *)
Definition js (s : string) : jsstring :=
  List.map N_of_ascii (list_ascii_of_string s).

Definition TAB : char16 := 9.        (* \t *)
Definition SPACE : char16 := 32.
Definition DQUOTE : char16 := 34.    (* double quote *)
Definition SQUOTE : char16 := 39.    (* single quote *)
Definition HYPHEN : char16 := 45.    (* hyphen-minus *)
Definition BULLET : char16 := 8226.  (* U+2022 *)
Definition LF : char16 := 10.

Fixpoint eqb (a b : jsstring) : bool :=
  match a, b with
  | [], [] => true
  | x :: a', y :: b' => N.eqb x y && eqb a' b'
  | _, _ => false
  end.

(** The class [\s] of ECMAScript regular expressions, which is also the
    set [String.prototype.trim] strips: WhiteSpace and LineTerminator. *)
Definition is_space (c : char16) : bool :=
  ((9 <=? c) && (c <=? 13))            (* \t \n \v \f \r *)
  || (c =? 32) || (c =? 160) || (c =? 5760)
  || ((8192 <=? c) && (c <=? 8202))    (* U+2000 .. U+200A *)
  || (c =? 8232) || (c =? 8233) || (c =? 8239) || (c =? 8287)
  || (c =? 12288) || (c =? 65279).

Fixpoint dropWhile (p : char16 -> bool) (s : jsstring) : jsstring :=
  match s with
  | [] => []
  | c :: t => if p c then dropWhile p t else s
  end.

(** [String.prototype.trim]. *)
Definition trim (s : jsstring) : jsstring :=
  rev (dropWhile is_space (rev (dropWhile is_space s))).

(** [s.replace(/X/g, r)] for a pattern [X] that matches one code unit
    (a literal character or a class [p]) and a replacement [r] without
    [$] patterns: every match is replaced, left to right. *)
Fixpoint replace_all (p : char16 -> bool) (r : jsstring) (s : jsstring)
  : jsstring :=
  match s with
  | [] => []
  | c :: t => if p c then r ++ replace_all p r t else c :: replace_all p r t
  end.

(** [s.replace(/X+/g, r)]: every maximal run of code units matching [p]
    is replaced by one copy of [r].  [in_run] tells that the previous
    code unit belonged to a run that was already replaced. *)
Fixpoint replace_runs_from (in_run : bool) (p : char16 -> bool)
  (r : jsstring) (s : jsstring) : jsstring :=
  match s with
  | [] => []
  | c :: t =>
      if p c
      then (if in_run then [] else r) ++ replace_runs_from true p r t
      else c :: replace_runs_from false p r t
  end.

Definition replace_runs := replace_runs_from false.

(** [String(n)] for a non-negative integer. *)
Definition of_N (n : N) : jsstring :=
  js (DecimalString.NilEmpty.string_of_uint (N.to_uint n)).

(** [s.padStart(len, '0')] *)
Definition padStart0 (len : nat) (s : jsstring) : jsstring :=
  List.repeat 48 (len - List.length s) ++ s.

(** [arr.includes(x)] on an array of strings. *)
Definition includes (arr : list jsstring) (x : jsstring) : bool :=
  existsb (eqb x) arr.

End JsString.
Import JsString.
Arguments js : simpl never.

(* ================================================================== *)
(** ** Content normalisation *)
(* ================================================================== *)

(** [modifyClipboardContent]:
    [content.replace(/\t/g, '  ').replace(/•/g, '-')] *)
Definition modifyClipboardContent (content : jsstring) : jsstring :=
  replace_all (N.eqb BULLET) (js "-")
    (replace_all (N.eqb TAB) (js "  ") content).

(** The normalisation as the specification words it: one pass over the
    characters, a tab becoming two spaces, a bullet a hyphen-minus, and
    every other character staying as it is. *)
Definition normalize_char_spec (c : char16) : jsstring :=
  if c =? TAB then [SPACE; SPACE]
  else if c =? BULLET then [HYPHEN]
  else [c].

Definition normalize_spec (s : jsstring) : jsstring :=
  flat_map normalize_char_spec s.

(* ================================================================== *)
(** ** JavaScript values and errors *)
(* ================================================================== *)

(** The values [JSON.parse] yields.  An object is the list of its own
    properties, each key occurring once. *)
Inductive json : Type :=
| JNull
| JBool (b : bool)
| JNum (x : Q)
| JStr (s : jsstring)
| JArr (items : list json)
| JObj (props : list (jsstring * json)).

(** An [Error] object: its [name] and its [message]. *)
Record jserror : Type := mkError {
  err_name : jsstring;
  err_message : jsstring
}.

Definition Error (msg : jsstring) : jserror := mkError (js "Error") msg.
Definition TypeError (msg : jsstring) : jserror :=
  mkError (js "TypeError") msg.
Definition AssertionError (msg : jsstring) : jserror :=
  mkError (js "AssertionError") msg.

(** [Error.prototype.toString], which a template literal applies. *)
Definition error_toString (e : jserror) : jsstring :=
  match err_name e, err_message e with
  | [], m => m
  | n, [] => n
  | n, m => n ++ js ": " ++ m
  end.

(** A call that either returns or throws. *)
Inductive result (A : Type) : Type :=
| Ok (a : A)
| Err (e : jserror).
Arguments Ok {A} a.
Arguments Err {A} e.

(** ToBoolean of a string. *)
Definition nonempty (s : jsstring) : bool :=
  match s with [] => false | _ :: _ => true end.

(** ToBoolean of a value that is a string, [null] or [undefined]. *)
Definition truthy_str (v : option jsstring) : bool :=
  match v with Some s => nonempty s | None => false end.

(** The string a value is once a truthiness test has excluded [null]
    and [undefined]. *)
Definition str_of (v : option jsstring) : jsstring :=
  match v with Some s => s | None => [] end.

(** ToBoolean of a parsed value; [None] is [undefined]. *)
Definition truthy (v : option json) : bool :=
  match v with
  | None => false
  | Some JNull => false
  | Some (JBool b) => b
  | Some (JNum x) => negb (Qeq_bool x 0)
  | Some (JStr s) => nonempty s
  | Some (JArr _) => true
  | Some (JObj _) => true
  end.

Fixpoint assoc {A : Type} (key : jsstring) (l : list (jsstring * A))
  : option A :=
  match l with
  | [] => None
  | (k, v) :: t => if JsString.eqb k key then Some v else assoc key t
  end.

(** [v.key] for a key that no prototype defines (such as [response]):
    a [TypeError] on [null], the own property on an object, and
    [undefined] everywhere else. *)
Definition get_prop (v : json) (key : jsstring) : result (option json) :=
  match v with
  | JNull =>
      Err (TypeError (js "null is not an object (evaluating '" ++ key
                        ++ js "')"))
  | JObj props => Ok (assoc key props)
  | _ => Ok None
  end.

(** [v.trim()]: only a string has the method; on any other value of
    JSON ([trim] is then [undefined], or a property that is no function)
    the call throws a [TypeError]. *)
Definition call_trim (v : option json) : result jsstring :=
  match v with
  | Some (JStr s) => Ok (trim s)
  | _ => Err (TypeError (js "trim is not a function"))
  end.

(** [URLSearchParams.get]: the first value of the name, or [null]. *)
Definition searchParams_get (qs : list (jsstring * jsstring))
  (name : jsstring) : option jsstring :=
  assoc name qs.

(* ================================================================== *)
(** ** The outside world *)
(* ================================================================== *)

(** A reading of [new Date()], in local time. *)
Record Date : Type := mkDate {
  getFullYear : N;
  getMonth : N;          (* 0 .. 11 *)
  getDate_ : N;          (* day of the month *)
  getHours : N;
  getMinutes : N;
  getSeconds : N;
  getMilliseconds : N
}.

(** What [getDate] returns. *)
Record DateParts : Type := mkParts {
  yyyy : jsstring; mm : jsstring; dd : jsstring; hh : jsstring;
  min : jsstring; ss : jsstring; mmm : jsstring
}.

(** The [resource] and [media] of a Drive [files.create] call. *)
Record upload_request : Type := mkRequest {
  req_name : jsstring;
  req_parents : list jsstring;
  req_mimeType : jsstring;
  req_body : jsstring
}.

(** The [data] of the answer, with the two requested fields. *)
Record drive_data : Type := mkData {
  data_id : option jsstring;
  data_webViewLink : option jsstring
}.

(** Everything the program obtains from libraries, services and its
    environment. *)
Record World : Type := mkWorld {
  argv : list jsstring;                      (* process.argv *)
  package_version : jsstring;                (* package.json version *)
  env_CLIENT_ID : option jsstring;           (* process.env.* *)
  env_CLIENT_SECRET : option jsstring;
  env_FOLDER_ID : option jsstring;
  (* Buffer.from(ENCODED_*, 'base64').toString('utf8') *)
  embedded_CLIENT_ID : jsstring;
  embedded_CLIENT_SECRET : jsstring;
  embedded_FOLDER_ID : jsstring;
  TOKEN_PATH : jsstring;
  clock : nat -> Date;                       (* n-th reading of the time *)
  JSON_parse : jsstring -> result json;
  JSON_stringify : json -> jsstring;
  generateAuthUrl : jsstring -> list jsstring -> jsstring;
  open_browser : jsstring -> result unit;
  (* req.url of the requests sent to port 3000, in order of arrival *)
  incoming_requests : list jsstring;
  (* new URL(url, base).searchParams *)
  URL_searchParams : jsstring -> jsstring ->
                     result (list (jsstring * jsstring));
  oauth_getToken : jsstring -> result json;  (* the [tokens] field *)
  fs_write_failure : option jserror;
  execSync : jsstring -> result jsstring;
  clipboard_read_failure : option jserror;
  clipboard_write_failure : option jserror;
  drive_files_create : upload_request -> result drive_data;
  drive_permissions_create : jsstring -> result unit
}.

(* ================================================================== *)
(** ** Process state and effects *)
(* ================================================================== *)

Inductive event : Type :=
| Stdout (line : jsstring)                  (* console.log *)
| Stderr (line : jsstring)                  (* console.error *)
| BrowserOpened (url : jsstring)            (* open(authUrl) *)
| ListenStarted (port : N)                  (* server.listen *)
| HttpResponse (body : jsstring)            (* res.end *)
| ListenerClosed                            (* server.close *)
| TokenExchange (code : jsstring)           (* oauth2Client.getToken *)
| TokenFileWrite (contents : jsstring)      (* fs.writeFileSync *)
| ShellCommand (cmd : jsstring)             (* execSync *)
| DriveClientCreated                        (* google.drive *)
| ClipboardRead                             (* clipboardy.readSync *)
| DriveCreate (req : upload_request)        (* drive.files.create *)
| DrivePermission (fileId : jsstring)       (* drive.permissions.create *)
| ClipboardWrite (text : jsstring).         (* clipboardy.writeSync *)

(** The calls that go over the network. *)
Definition is_network_call (e : event) : bool :=
  match e with
  | TokenExchange _ | ShellCommand _ | DriveCreate _ | DrivePermission _ =>
      true
  | _ => false
  end.

(** An event that only the upload pipeline produces. *)
Definition is_pipeline_event (e : event) : bool :=
  match e with
  | DriveClientCreated | ClipboardRead | ShellCommand _ | DriveCreate _
  | DrivePermission _ | ClipboardWrite _ => true
  | _ => false
  end.

Inductive listener_state : Type := NotStarted | Listening | Closed.

Inductive promise_state : Type :=
| Pending
| Resolved (code : jsstring)
| Rejected (e : jserror).

Record State : Type := mkState {
  trace : list event;                 (* oldest first *)
  clipboard : jsstring;
  token_file : option jsstring;       (* None: no file at TOKEN_PATH *)
  credentials : option json;          (* installed in oauth2Client *)
  clock_reads : nat;
  server : listener_state;
  auth_promise : promise_state
}.

Definition initial_state (clip : jsstring) (tok : option jsstring) : State :=
  mkState [] clip tok None 0 NotStarted Pending.

Definition add_event (e : event) (st : State) : State :=
  mkState (trace st ++ [e]) (clipboard st) (token_file st) (credentials st)
          (clock_reads st) (server st) (auth_promise st).

Definition set_clipboard (c : jsstring) (st : State) : State :=
  mkState (trace st) c (token_file st) (credentials st)
          (clock_reads st) (server st) (auth_promise st).

Definition set_token_file (f : option jsstring) (st : State) : State :=
  mkState (trace st) (clipboard st) f (credentials st)
          (clock_reads st) (server st) (auth_promise st).

Definition set_credentials (c : option json) (st : State) : State :=
  mkState (trace st) (clipboard st) (token_file st) c
          (clock_reads st) (server st) (auth_promise st).

Definition tick (st : State) : State :=
  mkState (trace st) (clipboard st) (token_file st) (credentials st)
          (S (clock_reads st)) (server st) (auth_promise st).

Definition set_server (l : listener_state) (st : State) : State :=
  mkState (trace st) (clipboard st) (token_file st) (credentials st)
          (clock_reads st) l (auth_promise st).

Definition set_promise (p : promise_state) (st : State) : State :=
  mkState (trace st) (clipboard st) (token_file st) (credentials st)
          (clock_reads st) (server st) p.

(** How a computation ends. *)
Inductive outcome (A : Type) : Type :=
| Ret (a : A)              (* normal completion *)
| Throw (e : jserror)      (* exception or rejected promise *)
| Exit (code : Z)          (* process.exit(code) *)
| Uncaught (e : jserror)   (* exception escaping an event callback *)
| Hang.                    (* awaits a promise that never settles *)
Arguments Ret {A} a.
Arguments Throw {A} e.
Arguments Exit {A} code.
Arguments Uncaught {A} e.
Arguments Hang {A}.

(** Effects keep the state reached when they stop, so that a [catch]
    block resumes from what the [try] block had already done. *)
Definition M (A : Type) : Type := State -> outcome A * State.

Definition ret {A} (a : A) : M A := fun st => (Ret a, st).

Definition bind {A B} (m : M A) (k : A -> M B) : M B :=
  fun st =>
    match m st with
    | (Ret a, st') => k a st'
    | (Throw e, st') => (Throw e, st')
    | (Exit c, st') => (Exit c, st')
    | (Uncaught e, st') => (Uncaught e, st')
    | (Hang, st') => (Hang, st')
    end.

Declare Scope js_scope.
Delimit Scope js_scope with M.
Notation "x <- m ;; k" := (bind m (fun x => k))
  (at level 61, m at next level, right associativity) : js_scope.
Notation "m ;; k" := (bind m (fun _ => k))
  (at level 61, right associativity) : js_scope.
Local Open Scope js_scope.

Definition throw {A} (e : jserror) : M A := fun st => (Throw e, st).

(** [process.exit(code)] *)
Definition process_exit {A} (code : Z) : M A := fun st => (Exit code, st).

(** [try { m } catch (error) { h error }]: only a thrown exception
    reaches the handler. *)
Definition try_catch {A} (m : M A) (h : jserror -> M A) : M A :=
  fun st =>
    match m st with
    | (Throw e, st') => h e st'
    | other => other
    end.

Definition lift {A} (r : result A) : M A :=
  fun st => match r with Ok a => (Ret a, st) | Err e => (Throw e, st) end.

Definition emit (e : event) : M unit := fun st => (Ret tt, add_event e st).

(** [assert(value, message)] *)
Definition assert_ (value : bool) (message : jsstring) : M unit :=
  if value then ret tt else throw (AssertionError message).

(** [if (c) { m }] *)
Definition when (c : bool) (m : M unit) : M unit :=
  if c then m else ret tt.

(** [a || b] on strings, [a] possibly [undefined]. *)
Definition or_else (a : option jsstring) (b : jsstring) : jsstring :=
  if truthy_str a then str_of a else b.

(* ================================================================== *)
(** ** The program *)
(* ================================================================== *)

(** The fields [getDate] computes from a reading [now] of the clock. *)
Definition date_parts (now : Date) : DateParts :=
  mkParts
    (of_N (getFullYear now))
    (padStart0 2 (of_N (getMonth now + 1)))
    (padStart0 2 (of_N (getDate_ now)))
    (padStart0 2 (of_N (getHours now)))
    (padStart0 2 (of_N (getMinutes now)))
    (padStart0 2 (of_N (getSeconds now)))
    (padStart0 3 (of_N (getMilliseconds now))).

Definition format_timestamp (d : DateParts) : jsstring :=
  js "[" ++ yyyy d ++ js "-" ++ mm d ++ js "-" ++ dd d ++ js " " ++
  hh d ++ js ":" ++ min d ++ js ":" ++ ss d ++ js "." ++ mmm d ++ js "]".

Section Program.

Variable W : World.

Definition helpMessage : jsstring :=
  [LF] ++ js "Usage: clip2drive [options]" ++ [LF] ++
  [LF] ++ js "Options:" ++ [LF] ++
  js "  -v, --version      Show the current version." ++ [LF] ++
  js "  -h, --help         Show help information." ++ [LF] ++
  js "  --auth-only        Perform authentication only." ++ [LF].

Definition ONLY_AUTH : bool := includes (argv W) (js "--auth-only").

Definition CLIENT_ID : jsstring :=
  or_else (env_CLIENT_ID W) (embedded_CLIENT_ID W).
Definition CLIENT_SECRET : jsstring :=
  or_else (env_CLIENT_SECRET W) (embedded_CLIENT_SECRET W).
Definition FOLDER_ID : jsstring :=
  or_else (env_FOLDER_ID W) (embedded_FOLDER_ID W).

Definition REDIRECT_URI : jsstring := js "http://localhost:3000".

Definition SCOPES : list jsstring :=
  [js "https://www.googleapis.com/auth/drive.file"].

(** [getDate]: one reading of the clock, formatted. *)
Definition getDate : M DateParts :=
  fun st => (Ret (date_parts (clock W (clock_reads st))), tick st).

(** [getTimestamp] *)
Definition getTimestamp : M jsstring :=
  d <- getDate ;; ret (format_timestamp d).

(** [log] *)
Definition log (message : jsstring) : M unit :=
  ts <- getTimestamp ;; emit (Stdout (ts ++ js " " ++ message)).

(** [errorLog] *)
Definition errorLog (message : jsstring) : M unit :=
  ts <- getTimestamp ;; emit (Stderr (ts ++ js " " ++ message)).

(** [console.log] without a timestamp. *)
Definition console_log (message : jsstring) : M unit :=
  emit (Stdout message).

(* ---------------------------------------------------------------- *)
(** *** The authorization callback listener *)

(** [res.end(body)] *)
Definition res_end (body : jsstring) : M unit := emit (HttpResponse body).

(** [server.close()] *)
Definition server_close : M unit :=
  fun st => (Ret tt, set_server Closed (add_event ListenerClosed st)).

(** [resolve] and [reject] of the pending promise: the first settles
    it, later calls do nothing. *)
Definition settle (p : promise_state) : M unit :=
  fun st =>
    match auth_promise st with
    | Pending => (Ret tt, set_promise p st)
    | _ => (Ret tt, st)
    end.

(** The request callback given to [http.createServer]. *)
Definition request_handler (req_url : jsstring) : M unit :=
  qs <- lift (URL_searchParams W req_url REDIRECT_URI) ;;
  let code := searchParams_get qs (js "code") in
  try_catch
    (assert_ (truthy_str code)
       (js "Authentication code not found in the callback URL.") ;;
     res_end (js "Authentication successful! You can close this window.") ;;
     server_close ;;
     settle (Resolved (str_of code)))
    (fun error =>
       res_end (js "Authentication failed.") ;;
       server_close ;;
       settle (Rejected error)).

(** The requests reach the callback as long as the listener is open; a
    closed listener accepts none.  An exception that leaves the
    callback is uncaught. *)
Fixpoint deliver (reqs : list jsstring) : M unit :=
  fun st =>
    match reqs with
    | [] => (Ret tt, st)
    | r :: rest =>
        match server st with
        | Listening =>
            match request_handler r st with
            | (Ret _, st') => deliver rest st'
            | (Throw e, st') => (Uncaught e, st')
            | other => other
            end
        | _ => (Ret tt, st)
        end
    end.

(** [await] of the authorization promise. *)
Definition await_promise : M jsstring :=
  fun st =>
    match auth_promise st with
    | Pending => (Hang, st)
    | Resolved code => (Ret code, st)
    | Rejected e => (Throw e, st)
    end.

(** [await new Promise((resolve, reject) => { ... })] of [authenticate]:
    the listener is created and started on port 3000, and the promise
    is awaited while the requests arrive. *)
Definition await_authorization_code : M jsstring :=
  (fun st => (Ret tt, set_promise Pending st)) ;;
  (fun st => (Ret tt, set_server Listening (add_event (ListenStarted 3000) st))) ;;
  log (js "Waiting for authentication...") ;;
  deliver (incoming_requests W) ;;
  await_promise.

(* ---------------------------------------------------------------- *)
(** *** [authenticate] *)

(** [fs.readFileSync(TOKEN_PATH)] *)
Definition readFileSync_token : M jsstring :=
  fun st =>
    match token_file st with
    | Some contents => (Ret contents, st)
    | None =>
        (Throw (Error (js "ENOENT: no such file or directory, open '"
                         ++ TOKEN_PATH W ++ js "'")), st)
    end.

(** [oauth2Client.setCredentials] *)
Definition setCredentials (c : json) : M unit :=
  fun st => (Ret tt, set_credentials (Some c) st).

(** [fs.writeFileSync(TOKEN_PATH, contents)] *)
Definition writeFileSync_token (contents : jsstring) : M unit :=
  emit (TokenFileWrite contents) ;;
  fun st =>
    match fs_write_failure W with
    | Some e => (Throw e, st)
    | None => (Ret tt, set_token_file (Some contents) st)
    end.

(** The [try] block: the stored token is read and installed. *)
Definition load_stored_token : M unit :=
  log (js "Attempting to read token from " ++ TOKEN_PATH W) ;;
  token <- readFileSync_token ;;
  parsed <- lift (JSON_parse W token) ;;
  setCredentials parsed ;;
  log (js "Token loaded successfully.").

(** The [catch] block: authorization through the browser. *)
Definition fresh_authorization : M unit :=
  let authUrl := generateAuthUrl W (js "offline") SCOPES in
  log (js "Opening the browser for authentication...") ;;
  emit (BrowserOpened authUrl) ;;
  lift (open_browser W authUrl) ;;
  code <- await_authorization_code ;;
  emit (TokenExchange code) ;;
  tokens <- lift (oauth_getToken W code) ;;
  setCredentials tokens ;;
  writeFileSync_token (JSON_stringify W tokens) ;;
  log (js "Token stored to " ++ TOKEN_PATH W).

(** The [try]/[catch] statement of [authenticate]; when it completes,
    credentials are installed. *)
Definition obtain_credentials : M unit :=
  try_catch load_stored_token (fun _ => fresh_authorization).

Definition authenticate : M unit :=
  obtain_credentials ;;
  when ONLY_AUTH
    (log (js "Only authentication requested...") ;;
     process_exit 0%Z).

(* ---------------------------------------------------------------- *)
(** *** [generateFileName] *)

Definition OLLAMA_PROMPT : jsstring :=
  js "Provide a short (max 30 characters) descriptive name for the following content as file name (only one option, as one string):"
  ++ [LF].

Definition curl_command (requestData : jsstring) : jsstring :=
  js "curl -s http://localhost:11434/api/generate -H " ++ [DQUOTE] ++
  js "Content-Type: application/json" ++ [DQUOTE] ++ js " -d " ++
  [SQUOTE] ++ requestData ++ [SQUOTE].

(** [execSync(cmd, { encoding: 'utf8' })] *)
Definition run_execSync (cmd : jsstring) : M jsstring :=
  emit (ShellCommand cmd) ;; lift (execSync W cmd).

Definition generateFileName (content : jsstring) : M jsstring :=
  try_catch
    (let prompt := OLLAMA_PROMPT ++ content in
     let requestData :=
       JSON_stringify W
         (JObj [(js "model", JStr (js "llama3.2"));
                (js "prompt", JStr prompt);
                (js "stream", JBool false)]) in
     log (js "Sending request to Ollama to generate a file name...") ;;
     let curlCommand := curl_command requestData in
     response <- run_execSync curlCommand ;;
     parsedResponse <- lift (JSON_parse W response) ;;
     field <- lift (get_prop parsedResponse (js "response")) ;;
     if truthy field then
       trimmed <- lift (call_trim field) ;;
       let generatedName :=
         replace_all (N.eqb DQUOTE) []
           (replace_runs is_space (js "-") trimmed) in
       log (js "Generated name: " ++ generatedName) ;;
       ret generatedName
     else
       throw (Error (js "Failed to get a valid response from Ollama.")))
    (fun error =>
       log (js "llama3.2 not found or failed to generate a name. Using default name.") ;;
       log (js "generateFileName error: " ++ error_toString error) ;;
       ret (js "Note")).

(* ---------------------------------------------------------------- *)
(** *** [uploadFile] *)

(** [clipboardy.readSync()] *)
Definition clipboard_readSync : M jsstring :=
  emit ClipboardRead ;;
  fun st =>
    match clipboard_read_failure W with
    | Some e => (Throw e, st)
    | None => (Ret (clipboard st), st)
    end.

(** [clipboardy.writeSync(text)]; the event records a write that took
    place. *)
Definition clipboard_writeSync (text : jsstring) : M unit :=
  fun st =>
    match clipboard_write_failure W with
    | Some e => (Throw e, st)
    | None => (Ret tt, set_clipboard text (add_event (ClipboardWrite text) st))
    end.

Definition uploadFile : M unit :=
  emit DriveClientCreated ;;
  content <- clipboard_readSync ;;
  try_catch
    (assert_ (nonempty content)
       (js "Clipboard is empty. Please copy some text to upload.") ;;
     log (js "Clipboard content retrieved successfully."))
    (fun error => errorLog (err_message error) ;; process_exit 1%Z) ;;
  let modifiedContent := modifyClipboardContent content in
  try_catch
    (assert_ (nonempty modifiedContent)
       (js "Failed to modify clipboard content.") ;;
     log (js "Clipboard content modified successfully."))
    (fun error => errorLog (err_message error) ;; process_exit 1%Z) ;;
  generatedName <- generateFileName modifiedContent ;;
  d <- getDate ;;
  let dateTimeString :=
    yyyy d ++ js "-" ++ mm d ++ js "-" ++ dd d ++ js "-" ++ hh d ++
    js "-" ++ min d ++ js "-" ++ ss d ++ js "-" ++ mmm d in
  let fileMetadata_name :=
    generatedName ++ js "-" ++ dateTimeString ++ js ".md" in
  let request :=
    mkRequest fileMetadata_name [FOLDER_ID] (js "text/markdown")
              modifiedContent in
  try_catch
    (log (js "Uploading file to Google Drive...") ;;
     emit (DriveCreate request) ;;
     data <- lift (drive_files_create W request) ;;
     assert_ (truthy_str (data_id data))
       (js "Failed to upload file to Google Drive.") ;;
     log (js "File uploaded successfully.") ;;
     emit (DrivePermission (str_of (data_id data))) ;;
     lift (drive_permissions_create W (str_of (data_id data))) ;;
     log (js "Permissions set to " ++ [DQUOTE] ++
          js "Anyone with the link can view" ++ [DQUOTE] ++ js ".") ;;
     assert_ (truthy_str (data_webViewLink data))
       (js "Failed to retrieve webViewLink for the uploaded file.") ;;
     clipboard_writeSync (str_of (data_webViewLink data)) ;;
     log (js "Link copied to clipboard: " ++ str_of (data_webViewLink data)))
    (fun error =>
       errorLog (js "Error during file upload: " ++ err_message error)).

(* ---------------------------------------------------------------- *)
(** *** The script *)

(** The asynchronous function called at the end of the file. *)
Definition main : M unit :=
  try_catch
    (authenticate ;; uploadFile)
    (fun error => errorLog (js "Error: " ++ err_message error)).

(** The whole module, top to bottom. *)
Definition script : M unit :=
  when (includes (argv W) (js "--help") || includes (argv W) (js "-h"))
    (console_log helpMessage ;; process_exit 0%Z) ;;
  when (includes (argv W) (js "--version") || includes (argv W) (js "-v"))
    (console_log (package_version W) ;; process_exit 0%Z) ;;
  try_catch
    (assert_ (nonempty CLIENT_ID) (js "CLIENT_ID is not set.") ;;
     assert_ (nonempty CLIENT_SECRET) (js "CLIENT_SECRET is not set.") ;;
     assert_ (nonempty FOLDER_ID) (js "FOLDER_ID is not set."))
    (fun err => errorLog (err_message err) ;; process_exit 1%Z) ;;
  main.

End Program.

(** The exit code of the process, when it ends: 0 when the script runs
    to its end, the argument of [process.exit], 1 for an uncaught
    exception or an unhandled rejection. *)
Definition exit_code (o : outcome unit) : option Z :=
  match o with
  | Ret _ => Some 0%Z
  | Exit c => Some c
  | Throw _ => Some 1%Z
  | Uncaught _ => Some 1%Z
  | Hang => None
  end.

(** The timestamp prefix of a log line written at the [n]-th reading of
    the clock. *)
Definition timestamp_at (W : World) (n : nat) : jsstring :=
  format_timestamp (date_parts (clock W n)).

Definition log_line (W : World) (n : nat) (message : jsstring) : jsstring :=
  timestamp_at W n ++ js " " ++ message.

(* ================================================================== *)
(** ** Auxiliary definitions for the statements *)
(* ================================================================== *)

(** The command [generateFileName] runs for [content]. *)
Definition ollama_command (W : World) (content : jsstring) : jsstring :=
  curl_command
    (JSON_stringify W
       (JObj [(js "model", JStr (js "llama3.2"));
              (js "prompt", JStr (OLLAMA_PROMPT ++ content));
              (js "stream", JBool false)])).

(** The name the [try] block of [generateFileName] computes from the
    [response] field. *)
Definition sanitize_name (s : jsstring) : jsstring :=
  replace_all (N.eqb DQUOTE) [] (replace_runs is_space (js "-") (trim s)).

(** What the [try] block of [generateFileName] ends with: the name, or
    the error that reaches the [catch] block. *)
Definition service_name (W : World) (content : jsstring) : result jsstring :=
  match execSync W (ollama_command W content) with
  | Err e => Err e
  | Ok response =>
      match JSON_parse W response with
      | Err e => Err e
      | Ok parsed =>
          match get_prop parsed (js "response") with
          | Err e => Err e
          | Ok field =>
              if truthy field then
                match call_trim field with
                | Err e => Err e
                | Ok trimmed =>
                    Ok (replace_all (N.eqb DQUOTE) []
                          (replace_runs is_space (js "-") trimmed))
                end
              else Err (Error (js "Failed to get a valid response from Ollama."))
          end
      end
  end.

(** The state the request callback leaves: the page is sent, the
    listener closed and the promise settled. *)
Definition served (page : jsstring) (p : promise_state) (st : State) : State :=
  set_promise p
    (set_server Closed
       (add_event ListenerClosed (add_event (HttpResponse page) st))).

Definition SUCCESS_PAGE : jsstring :=
  js "Authentication successful! You can close this window.".

Definition FAILURE_PAGE : jsstring := js "Authentication failed.".

Definition MISSING_CODE : jserror :=
  AssertionError (js "Authentication code not found in the callback URL.").

(** The state once [uploadFile] has created the Drive client and read
    the clipboard. *)
Definition pipeline_start (st : State) : State :=
  add_event ClipboardRead (add_event DriveClientCreated st).

(** The request [uploadFile] builds from the generated name, the parts
    of the date and the normalised content. *)
Definition build_request (W : World) (generatedName : jsstring)
  (d : DateParts) (modifiedContent : jsstring) : upload_request :=
  mkRequest
    (generatedName ++ js "-" ++
     (yyyy d ++ js "-" ++ mm d ++ js "-" ++ dd d ++ js "-" ++ hh d ++
      js "-" ++ min d ++ js "-" ++ ss d ++ js "-" ++ mmm d) ++ js ".md")
    [FOLDER_ID W] (js "text/markdown") modifiedContent.

(** The last [try] block of [uploadFile], for a given request. *)
Definition drive_steps (W : World) (request : upload_request) : M unit :=
  log W (js "Uploading file to Google Drive...") ;;
  emit (DriveCreate request) ;;
  data <- lift (drive_files_create W request) ;;
  assert_ (truthy_str (data_id data))
    (js "Failed to upload file to Google Drive.") ;;
  log W (js "File uploaded successfully.") ;;
  emit (DrivePermission (str_of (data_id data))) ;;
  lift (drive_permissions_create W (str_of (data_id data))) ;;
  log W (js "Permissions set to " ++ [DQUOTE] ++
         js "Anyone with the link can view" ++ [DQUOTE] ++ js ".") ;;
  assert_ (truthy_str (data_webViewLink data))
    (js "Failed to retrieve webViewLink for the uploaded file.") ;;
  clipboard_writeSync W (str_of (data_webViewLink data)) ;;
  log W (js "Link copied to clipboard: " ++ str_of (data_webViewLink data)).

(** [uploadFile] from the generation of the name on, for content that
    passed both checks. *)
Definition upload_content (W : World) (modifiedContent : jsstring) : M unit :=
  generatedName <- generateFileName W modifiedContent ;;
  d <- getDate W ;;
  try_catch
    (drive_steps W (build_request W generatedName d modifiedContent))
    (fun error =>
       errorLog W (js "Error during file upload: " ++ err_message error)).

Definition is_clipboard_write (e : event) : bool :=
  match e with ClipboardWrite _ => true | _ => false end.

(** The state after [log message] or [errorLog message]. *)
Definition logged (W : World) (message : jsstring) (st : State) : State :=
  add_event (Stdout (log_line W (clock_reads st) message)) (tick st).

Definition error_logged (W : World) (message : jsstring) (st : State)
  : State :=
  add_event (Stderr (log_line W (clock_reads st) message)) (tick st).

(** The events a computation adds to the trace all satisfy [P]. *)
Definition appends {A} (P : event -> Prop) (m : M A) : Prop :=
  forall st, exists l,
    trace (snd (m st)) = trace st ++ l /\ Forall P l.

(** A computation leaves the clipboard as it is. *)
Definition keeps_clipboard {A} (m : M A) : Prop :=
  forall st, clipboard (snd (m st)) = clipboard st.

(** Two states that differ at most in the token file. *)
Definition same_but_token_file (a b : State) : Prop :=
  set_token_file None a = set_token_file None b.

(** A computation that does not look at the token file: from states
    that differ at most there, it ends the same way in states that
    differ at most there. *)
Definition token_blind {A} (m : M A) : Prop :=
  forall a b, same_but_token_file a b ->
    fst (m a) = fst (m b) /\ same_but_token_file (snd (m a)) (snd (m b)).

(** State changes that leave the trace alone. *)
Definition silent {A} (m : M A) : Prop :=
  forall st, trace (snd (m st)) = trace st.

(* ------------------------------------------------------------------ *)
(** *** Worlds for the examples *)

Definition SyntaxError (msg : jsstring) : jserror :=
  mkError (js "SyntaxError") msg.

(** A world in which the listed parts are given and everything else is
    fixed: credentials in the environment, a constant clock, writable
    token file and clipboard. *)
Definition example_world
  (args : list jsstring)
  (parse : jsstring -> result json)
  (requests : list jsstring)
  (params : jsstring -> jsstring -> result (list (jsstring * jsstring)))
  (exec : jsstring -> result jsstring)
  (read_failure : option jserror)
  (create : upload_request -> result drive_data)
  (grant : jsstring -> result unit) : World :=
  mkWorld args (js "1.0.0")
    (Some (js "client-id")) (Some (js "client-secret")) (Some (js "folder"))
    [] [] []
    (js "/home/user/.clip2drive_token.json")
    (fun _ => mkDate 2024 0 5 9 7 3 42)
    parse
    (fun _ => js "{}")
    (fun _ _ => js "https://accounts.google.com/o/oauth2/v2/auth")
    (fun _ => Ok tt)
    requests params
    (fun _ => Ok (JObj [(js "access_token", JStr (js "ya29"))]))
    None exec read_failure None create grant.

Definition no_parse : jsstring -> result json :=
  fun _ => Err (SyntaxError (js "Unexpected end of JSON input")).

Definition no_params
  : jsstring -> jsstring -> result (list (jsstring * jsstring)) :=
  fun _ _ => Ok [].

Definition no_service : jsstring -> result jsstring :=
  fun _ => Err (Error (js "Command failed: curl")).

Definition no_drive : upload_request -> result drive_data :=
  fun _ => Err (Error (js "getaddrinfo ENOTFOUND www.googleapis.com")).

Definition no_grant : jsstring -> result unit :=
  fun _ => Err (Error (js "Insufficient permissions")).

(** A URL parser for the examples: it knows two request targets. *)
Definition example_params
  : jsstring -> jsstring -> result (list (jsstring * jsstring)) :=
  fun url _ =>
    if JsString.eqb url (js "/?code=4/0AbCdEf&scope=drive.file")
    then Ok [(js "code", js "4/0AbCdEf"); (js "scope", js "drive.file")]
    else if JsString.eqb url (js "/?code=")
    then Ok [(js "code", [])]
    else if JsString.eqb url (js "/favicon.ico")
    then Ok []
    else Err (TypeError (js "Invalid URL")).

Definition callback_world (requests : list jsstring) : World :=
  example_world [] no_parse requests example_params no_service None
    no_drive no_grant.

(** The listener is open and the authorization pending. *)
Definition awaiting_state : State :=
  mkState [] (js "text") None None 0 Listening Pending.

(** Token files for the examples: one that parses and one that does
    not. *)
Definition stored_token_text : jsstring :=
  js "{" ++ [DQUOTE] ++ js "access_token" ++ [DQUOTE] ++ js ":" ++
  [DQUOTE] ++ js "ya29" ++ [DQUOTE] ++ js "}".

Definition stored_token_record : json :=
  JObj [(js "access_token", JStr (js "ya29"))].

Definition example_parse : jsstring -> result json :=
  fun text => if JsString.eqb text stored_token_text
              then Ok stored_token_record
              else no_parse text.

(** The user approves in the browser, and the browser then also asks
    for the icon of the page. *)
Definition approving_world (args : list jsstring) : World :=
  example_world args example_parse
    [js "/?code=4/0AbCdEf&scope=drive.file"; js "/favicon.ico"]
    example_params no_service None no_drive no_grant.

(** A stored token, and a clipboard that cannot be read. *)
Definition unreadable_world : World :=
  example_world [js "bun"; js "index.js"] example_parse [] example_params
    no_service
    (Some (Error (js "Command failed: pbpaste")))
    no_drive no_grant.

(** A stored token, no generation service, a Drive that creates the
    file, and a permission call that answers as [grant] says. *)
Definition created_file : drive_data :=
  mkData (Some (js "1AbC")) (Some (js "https://drive.google.com/file/d/1AbC/view")).

Definition drive_world (grant : jsstring -> result unit) : World :=
  example_world [js "bun"; js "index.js"] example_parse [] example_params
    no_service None (fun _ => Ok created_file) grant.

Definition stored_start (clip : jsstring) : State :=
  initial_state clip (Some stored_token_text).

(** The generation service answers every request with the JSON text
    [{ response: r }]. *)
Definition answer_text (r : jsstring) : jsstring :=
  js "{" ++ [DQUOTE] ++ js "response" ++ [DQUOTE] ++ js ":" ++
  [DQUOTE] ++ r ++ [DQUOTE] ++ js "}".

Definition answering_world (r : jsstring) : World :=
  example_world []
    (fun text => if JsString.eqb text (answer_text r)
                 then Ok (JObj [(js "response", JStr r)])
                 else no_parse text)
    [] no_params
    (fun _ => Ok (answer_text r))
    None no_drive no_grant.

(* ================================================================== *)
(** ** Further auxiliary definitions *)
(* ================================================================== *)

(** The value of a string of decimal digits. *)
Definition digits_value (s : jsstring) : N :=
  fold_left (fun acc c => 10 * acc + (c - 48)) s 0.

Definition is_digit (c : char16) : bool := (48 <=? c) && (c <=? 57).

(** A fixed-width decimal field: [width] digits that read as [value]. *)
Definition decimal_field (width : nat) (value : N) (s : jsstring) : Prop :=
  List.length s = width /\ forallb is_digit s = true /\
  digits_value s = value.

(** Clock readings with a four-digit year. *)
Definition four_digit_year (d : Date) : Prop :=
  1000 <= getFullYear d /\ getFullYear d <= 9999.

(** What the JavaScript [Date] getters guarantee. *)
Definition getter_ranges (d : Date) : Prop :=
  getMonth d <= 11 /\ getDate_ d <= 31 /\ getHours d <= 23 /\
  getMinutes d <= 59 /\ getSeconds d <= 59 /\ getMilliseconds d <= 999.

(** The numbers below [k]. *)
Definition below (k : nat) : list N := List.map N.of_nat (seq 0 k).

(** The service answers every request with the parsed value [v]. *)
Definition parsed_answer_world (v : json) : World :=
  example_world [] (fun _ => Ok v) [] no_params
    (fun _ => Ok (js "answer")) None no_drive no_grant.


(** The bounds and digits of a field, as a test. *)
Definition field_ok (width : nat) (value : N) (s : jsstring) : bool :=
  Nat.eqb (List.length s) width && forallb is_digit s
  && (digits_value s =? value).

(** The message of the first credential that is not set, if any. *)
Definition first_missing_credential (W : World) : option jsstring :=
  if negb (nonempty (CLIENT_ID W)) then Some (js "CLIENT_ID is not set.")
  else if negb (nonempty (CLIENT_SECRET W))
       then Some (js "CLIENT_SECRET is not set.")
  else if negb (nonempty (FOLDER_ID W)) then Some (js "FOLDER_ID is not set.")
  else None.

Definition help_requested (W : World) : bool :=
  includes (argv W) (js "--help") || includes (argv W) (js "-h").

Definition version_requested (W : World) : bool :=
  includes (argv W) (js "--version") || includes (argv W) (js "-v").

(** A world that differs from the usual example in its arguments and
    its credentials. *)
Definition configured_world (args : list jsstring)
  (env_id : option jsstring) (embedded_id : jsstring)
  (env_secret : option jsstring) (env_folder : option jsstring) : World :=
  mkWorld args (js "1.0.0") env_id env_secret env_folder
    embedded_id [] []
    (js "/home/user/.clip2drive_token.json")
    (fun _ => mkDate 2024 0 5 9 7 3 42)
    example_parse (fun _ => js "{}")
    (fun _ _ => js "https://accounts.google.com/o/oauth2/v2/auth")
    (fun _ => Ok tt) [] example_params
    (fun _ => Ok stored_token_record)
    None no_service None None no_drive no_grant.


(** The state in which the listener waits for requests. *)
Definition listening_state (W : World) (st : State) : State :=
  logged W (js "Waiting for authentication...")
    (set_server Listening
       (add_event (ListenStarted 3000) (set_promise Pending st))).

(** The state in which the browser has been asked to open the
    authorization URL. *)
Definition browser_state (W : World) (st : State) : State :=
  add_event (BrowserOpened (generateAuthUrl W (js "offline") SCOPES))
    (logged W (js "Opening the browser for authentication...") st).

Definition ATTEMPT (W : World) : jsstring :=
  js "Attempting to read token from " ++ TOKEN_PATH W.

(** The token file does not yield a record: it is missing or does not
    parse. *)
Definition no_stored_token (W : World) (st : State) : Prop :=
  token_file st = None \/
  exists text e, token_file st = Some text /\ JSON_parse W text = Err e.

(** A world whose JSON functions agree on the token record. *)
Definition round_trip_world (requests : list jsstring)
  (token : jsstring -> result json) : World :=
  mkWorld [js "bun"; js "index.js"] (js "1.0.0")
    (Some (js "client-id")) (Some (js "client-secret")) (Some (js "folder"))
    [] [] []
    (js "/home/user/.clip2drive_token.json")
    (fun _ => mkDate 2024 0 5 9 7 3 42)
    example_parse (fun _ => stored_token_text)
    (fun _ _ => js "https://accounts.google.com/o/oauth2/v2/auth")
    (fun _ => Ok tt) requests example_params token
    None no_service None None no_drive no_grant.

Definition token_granted : jsstring -> result json :=
  fun _ => Ok stored_token_record.

Definition token_refused : jsstring -> result json :=
  fun _ => Err (Error (js "invalid_grant")).


(** The message the last [catch] block of [uploadFile] logs. *)
Definition upload_error_message (e : jserror) : jsstring :=
  js "Error during file upload: " ++ err_message e.

(** The state in which both checks on the clipboard content passed. *)
Definition checked_state (W : World) (st : State) : State :=
  logged W (js "Clipboard content modified successfully.")
    (logged W (js "Clipboard content retrieved successfully.")
       (pipeline_start st)).

(** The parts of the state that neither logging nor the clock touch. *)
Definition durable (st : State)
  : option jsstring * option json * listener_state * promise_state :=
  (token_file st, credentials st, server st, auth_promise st).

Definition is_log_or_shell (e : event) : bool :=
  match e with
  | Stdout _ | ShellCommand _ => true
  | _ => false
  end.

(** A Drive that creates the file and answers without a link. *)
Definition linkless_world : World :=
  example_world [js "bun"; js "index.js"] example_parse [] example_params
    no_service None
    (fun _ => Ok (mkData (Some (js "1AbC")) None))
    (fun _ => Ok tt).

(* ================================================================== *)
(** * Properties *)
(* ================================================================== *)

(** ** Lemmas on the string primitives *)

Lemma eqb_refl (s : jsstring) : JsString.eqb s s = true.
Proof.
  induction s as [|c s IH]; simpl; [reflexivity|].
  now rewrite N.eqb_refl, IH.
Qed.

Lemma eqb_eq (a b : jsstring) : JsString.eqb a b = true <-> a = b.
Proof.
  revert b; induction a as [|x a IH]; intros [|y b]; simpl;
    try (split; [discriminate | discriminate]); try tauto.
  rewrite andb_true_iff, N.eqb_eq, IH. split.
  - intros [-> ->]; reflexivity.
  - intros H; injection H; auto.
Qed.

Lemma replace_all_app p r a b :
  replace_all p r (a ++ b) = replace_all p r a ++ replace_all p r b.
Proof.
  induction a as [|c a IH]; simpl; [reflexivity|].
  destruct (p c); rewrite IH; [now rewrite app_assoc | reflexivity].
Qed.

Lemma replace_all_none p r s :
  Forall (fun c => p c = false) s -> replace_all p r s = s.
Proof.
  induction 1 as [|c s Hc _ IH]; simpl; [reflexivity|].
  now rewrite Hc, IH.
Qed.

Lemma replace_all_flat_map p r s :
  replace_all p r s = flat_map (fun c => if p c then r else [c]) s.
Proof.
  induction s as [|c s IH]; simpl; [reflexivity|].
  destruct (p c); now rewrite IH.
Qed.

Lemma replace_all_clean p r s :
  Forall (fun c => p c = false) r ->
  Forall (fun c => p c = false) (replace_all p r s).
Proof.
  intros Hr; induction s as [|c s IH]; simpl; [constructor|].
  destruct (p c) eqn:E.
  - apply Forall_app; split; assumption.
  - constructor; assumption.
Qed.

Lemma replace_all_preserves (q p : char16 -> bool) r s :
  Forall (fun c => q c = false) r ->
  Forall (fun c => q c = false) s ->
  Forall (fun c => q c = false) (replace_all p r s).
Proof.
  intros Hr; induction 1 as [|c s Hc _ IH]; simpl; [constructor|].
  destruct (p c).
  - apply Forall_app; split; assumption.
  - constructor; assumption.
Qed.

Lemma replace_all_nonempty p r s :
  r <> [] -> s <> [] -> replace_all p r s <> [].
Proof.
  intros Hr Hs. destruct s as [|c s]; [contradiction|]. simpl.
  destruct (p c); [|discriminate].
  destruct r; [contradiction | discriminate].
Qed.

(* ------------------------------------------------------------------ *)
(** *** Properties of [modifyClipboardContent] *)

Lemma modify_no_tab_no_bullet (s : jsstring) :
  Forall (fun c => (TAB =? c) = false) (modifyClipboardContent s) /\
  Forall (fun c => (BULLET =? c) = false) (modifyClipboardContent s).
Proof.
  unfold modifyClipboardContent; split.
  - apply replace_all_preserves.
    + repeat constructor.
    + apply replace_all_clean. repeat constructor.
  - apply replace_all_clean. repeat constructor.
Qed.

Lemma modify_cons (c : char16) (s : jsstring) :
  modifyClipboardContent (c :: s)
  = normalize_char_spec c ++ modifyClipboardContent s.
Proof.
  unfold modifyClipboardContent, normalize_char_spec.
  cbn [replace_all]. rewrite (N.eqb_sym TAB c).
  destruct (c =? TAB) eqn:Et.
  - now rewrite replace_all_app.
  - cbn [replace_all]. rewrite (N.eqb_sym BULLET c).
    now destruct (c =? BULLET).
Qed.

(** C2. Normalisation replaces every horizontal tab by exactly two
    spaces and every bullet (U+2022) by a hyphen-minus and leaves every
    other character unchanged: the two replacement passes of the code
    equal the one-pass character map of the specification, and the
    result contains no tab and no bullet. *)
Theorem C2_normalize_refines_spec (s : jsstring) :
  modifyClipboardContent s = normalize_spec s /\
  ~ In TAB (modifyClipboardContent s) /\
  ~ In BULLET (modifyClipboardContent s).
Proof.
  split.
  - unfold normalize_spec.
    induction s as [|c s IH]; [reflexivity|].
    cbn [flat_map]. now rewrite modify_cons, IH.
  - destruct (modify_no_tab_no_bullet s) as [Ht Hb].
    rewrite Forall_forall in Ht, Hb. split; intros Hin.
    + apply Ht in Hin. now rewrite N.eqb_refl in Hin.
    + apply Hb in Hin. now rewrite N.eqb_refl in Hin.
Qed.

(** C8. Normalisation is idempotent. *)
Theorem C8_normalize_idempotent (s : jsstring) :
  modifyClipboardContent (modifyClipboardContent s)
  = modifyClipboardContent s.
Proof.
  destruct (modify_no_tab_no_bullet s) as [Ht Hb].
  unfold modifyClipboardContent at 1.
  rewrite (replace_all_none (N.eqb TAB)) by exact Ht.
  now rewrite (replace_all_none (N.eqb BULLET)) by exact Hb.
Qed.

Lemma modify_nonempty (s : jsstring) :
  s <> [] -> modifyClipboardContent s <> [].
Proof.
  intros Hs. unfold modifyClipboardContent.
  apply replace_all_nonempty; [discriminate|].
  apply replace_all_nonempty; [discriminate | exact Hs].
Qed.

(* ================================================================== *)
(** ** Running effects *)

Lemma bind_ret_run {A B} (m : M A) (k : A -> M B) st a st' :
  m st = (Ret a, st') -> bind m k st = k a st'.
Proof. unfold bind; now intros ->. Qed.

Lemma log_run W msg st : log W msg st = (Ret tt, logged W msg st).
Proof. reflexivity. Qed.

Lemma errorLog_run W msg st :
  errorLog W msg st = (Ret tt, error_logged W msg st).
Proof. reflexivity. Qed.

Lemma bind_log {B} W msg (k : unit -> M B) st :
  bind (log W msg) k st = k tt (logged W msg st).
Proof. reflexivity. Qed.

Lemma bind_errorLog {B} W msg (k : unit -> M B) st :
  bind (errorLog W msg) k st = k tt (error_logged W msg st).
Proof. reflexivity. Qed.

Lemma bind_emit {B} e (k : unit -> M B) st :
  bind (emit e) k st = k tt (add_event e st).
Proof. reflexivity. Qed.

Lemma bind_lift_ok {A B} (r : result A) (k : A -> M B) st a :
  r = Ok a -> bind (lift r) k st = k a st.
Proof. now intros ->. Qed.

Lemma bind_lift_err {A B} (r : result A) (k : A -> M B) st e :
  r = Err e -> bind (lift r) k st = (Throw e, st).
Proof. now intros ->. Qed.

Lemma bind_assoc {A B C} (m : M A) (k : A -> M B) (h : B -> M C) st :
  bind (bind m k) h st = bind m (fun a => bind (k a) h) st.
Proof. unfold bind. destruct (m st) as [[a|e|c|e|] st']; reflexivity. Qed.

(* ================================================================== *)
(** ** The file-name generator *)

Lemma replace_runs_from_clean b p r s :
  Forall (fun c => p c = false) r ->
  Forall (fun c => p c = false) (replace_runs_from b p r s).
Proof.
  intros Hr; revert b; induction s as [|c s IH]; intros b; simpl.
  - constructor.
  - destruct (p c) eqn:E.
    + apply Forall_app; split; [destruct b; [constructor | exact Hr] | apply IH].
    + constructor; [exact E | apply IH].
Qed.

Lemma replace_runs_from_none p r s :
  Forall (fun c => p c = false) s -> replace_runs_from false p r s = s.
Proof.
  induction 1 as [|c s Hc _ IH]; simpl; [reflexivity|].
  now rewrite Hc, IH.
Qed.

Lemma dropWhile_none p s :
  Forall (fun c => p c = false) s -> dropWhile p s = s.
Proof. destruct 1 as [|c s Hc _]; simpl; [reflexivity | now rewrite Hc]. Qed.

Lemma trim_none s :
  Forall (fun c => is_space c = false) s -> trim s = s.
Proof.
  intros H. unfold trim. rewrite (dropWhile_none _ s H).
  rewrite dropWhile_none; [apply rev_involutive|].
  now apply Forall_rev.
Qed.

Lemma dropWhile_split p s :
  exists a, s = a ++ dropWhile p s /\ Forall (fun c => p c = true) a.
Proof.
  induction s as [|c s [a [Ha HP]]]; [exists []; now split|].
  cbn [dropWhile]. destruct (p c) eqn:E.
  - exists (c :: a). split; [now rewrite Ha at 1 | now constructor].
  - exists []. now split.
Qed.

Lemma dropWhile_head p s c t :
  dropWhile p s = c :: t -> p c = false.
Proof.
  induction s as [|x s IH]; cbn [dropWhile]; [discriminate|].
  destruct (p x) eqn:E; [exact IH|]. now intros [= <- _].
Qed.

(** [trim] removes white space at both ends and nothing else: the
    string is a run of white space, the trimmed string and a run of
    white space, and the trimmed string neither starts nor ends with
    white space. *)
Lemma trim_spec s :
  (exists a b, s = a ++ trim s ++ b /\
               Forall (fun c => is_space c = true) a /\
               Forall (fun c => is_space c = true) b) /\
  (forall c t, trim s = c :: t -> is_space c = false) /\
  (forall t c, trim s = t ++ [c] -> is_space c = false).
Proof.
  unfold trim. split; [|split].
  - destruct (dropWhile_split is_space s) as [a [Ha HPa]].
    destruct (dropWhile_split is_space (rev (dropWhile is_space s)))
      as [b [Hb HPb]].
    exists a, (rev b). split; [|split; [exact HPa | now apply Forall_rev]].
    rewrite <- rev_app_distr, <- Hb, rev_involutive. exact Ha.
  - intros c t H.
    destruct (dropWhile_split is_space (rev (dropWhile is_space s)))
      as [b [Hb _]].
    apply (f_equal (@rev _)) in Hb. rewrite rev_involutive in Hb.
    rewrite rev_app_distr, H in Hb. cbn [app] in Hb.
    apply (dropWhile_head is_space s c (t ++ rev b)). exact Hb.
  - intros t c H. apply (f_equal (@rev _)) in H.
    rewrite rev_involutive, rev_app_distr in H. cbn [rev app] in H.
    exact (dropWhile_head is_space (rev (dropWhile is_space s)) c (rev t) H).
Qed.

Example trim_example :
  trim (js "  Meeting notes " ++ [TAB; LF]) = js "Meeting notes".
Proof. reflexivity. Qed.

Example replace_runs_example :
  replace_runs is_space (js "-") (js "a  b" ++ [TAB; LF] ++ js "c d")
  = js "a-b-c-d".
Proof. reflexivity. Qed.

Example sanitize_name_example :
  sanitize_name ([DQUOTE] ++ js "Weekly  report" ++ [DQUOTE; LF])
  = js "Weekly-report".
Proof. reflexivity. Qed.

Example modifyClipboardContent_example :
  modifyClipboardContent (js "Hello" ++ [TAB] ++ js "World" ++ [BULLET] ++ js "Item")
  = js "Hello  World-Item".
Proof. reflexivity. Qed.

(** The sanitized name contains neither white space nor double quotes. *)
Lemma sanitize_name_clean s :
  Forall (fun c => is_space c = false) (sanitize_name s) /\
  Forall (fun c => (DQUOTE =? c) = false) (sanitize_name s).
Proof.
  unfold sanitize_name; split.
  - apply replace_all_preserves; [constructor|].
    apply replace_runs_from_clean. repeat constructor.
  - apply replace_all_clean. constructor.
Qed.

(** A response without white space and double quotes is returned whole,
    whatever its length. *)
Lemma sanitize_name_id s :
  Forall (fun c => is_space c = false) s ->
  Forall (fun c => (DQUOTE =? c) = false) s ->
  sanitize_name s = s.
Proof.
  intros Hs Hq. unfold sanitize_name, replace_runs.
  rewrite (trim_none s Hs), (replace_runs_from_none _ _ s Hs).
  now apply replace_all_none.
Qed.

Lemma generateFileName_success W content st response parsed s :
  execSync W (ollama_command W content) = Ok response ->
  JSON_parse W response = Ok parsed ->
  get_prop parsed (js "response") = Ok (Some (JStr s)) ->
  s <> [] ->
  generateFileName W content st
  = (Ret (sanitize_name s),
     logged W (js "Generated name: " ++ sanitize_name s)
       (add_event (ShellCommand (ollama_command W content))
          (logged W (js "Sending request to Ollama to generate a file name...") st))).
Proof.
  intros Hexec Hparse Hget Hs.
  unfold generateFileName, try_catch, run_execSync.
  rewrite bind_log, bind_assoc, bind_emit.
  fold (ollama_command W content).
  rewrite (bind_lift_ok _ _ _ _ Hexec), (bind_lift_ok _ _ _ _ Hparse),
    (bind_lift_ok _ _ _ _ Hget).
  destruct s as [|c s]; [contradiction|].
  cbn [truthy nonempty call_trim].
  rewrite (bind_lift_ok _ _ _ _ eq_refl), bind_log.
  reflexivity.
Qed.

(** [generateFileName] always returns: the name of the service, or the
    fallback after two log lines. *)
Lemma generateFileName_run W content st :
  let st1 :=
    add_event (ShellCommand (ollama_command W content))
      (logged W (js "Sending request to Ollama to generate a file name...") st)
  in
  generateFileName W content st =
  match service_name W content with
  | Ok name => (Ret name, logged W (js "Generated name: " ++ name) st1)
  | Err e =>
      (Ret (js "Note"),
       logged W (js "generateFileName error: " ++ error_toString e)
         (logged W (js "llama3.2 not found or failed to generate a name. Using default name.") st1))
  end.
Proof.
  intros st1. subst st1.
  unfold generateFileName, service_name, try_catch, run_execSync.
  rewrite bind_log, bind_assoc, bind_emit.
  fold (ollama_command W content).
  destruct (execSync W (ollama_command W content)) as [response|e] eqn:Hexec.
  2:{ rewrite (bind_lift_err _ _ _ _ eq_refl). reflexivity. }
  rewrite (bind_lift_ok _ _ _ _ eq_refl).
  destruct (JSON_parse W response) as [parsed|e] eqn:Hparse.
  2:{ rewrite (bind_lift_err _ _ _ _ eq_refl). reflexivity. }
  rewrite (bind_lift_ok _ _ _ _ eq_refl).
  destruct (get_prop parsed (js "response")) as [field|e] eqn:Hget.
  2:{ rewrite (bind_lift_err _ _ _ _ eq_refl). reflexivity. }
  rewrite (bind_lift_ok _ _ _ _ eq_refl).
  destruct (truthy field); [|reflexivity].
  destruct (call_trim field) as [trimmed|e] eqn:Htrim.
  2:{ rewrite (bind_lift_err _ _ _ _ eq_refl). reflexivity. }
  rewrite (bind_lift_ok _ _ _ _ eq_refl). reflexivity.
Qed.

(** The part of C1 that holds: the generator never fails, and whenever
    its [try] block fails, whatever the reason, it logs the failure and
    returns ["Note"]. *)
Lemma generateFileName_never_fails W content st :
  exists name, fst (generateFileName W content st) = Ret name.
Proof.
  rewrite generateFileName_run.
  destruct (service_name W content); eexists; reflexivity.
Qed.

Lemma generateFileName_fallback W content st e :
  service_name W content = Err e ->
  fst (generateFileName W content st) = Ret (js "Note") /\
  exists st', snd (generateFileName W content st)
    = logged W (js "generateFileName error: " ++ error_toString e) st'.
Proof.
  intros H. rewrite generateFileName_run, H. split; [reflexivity|].
  eexists; reflexivity.
Qed.

(** C1. The generated name can be empty: when the service answers with
    a [response] field that consists of one space, the field passes the
    truthiness test, and trimming leaves the empty string, which
    [generateFileName] returns instead of the fallback ["Note"]. *)
Theorem C1_blank_response_yields_empty_name (content : jsstring) (st : State) :
  fst (generateFileName (answering_world (js " ")) content st) = Ret [].
Proof.
  rewrite (generateFileName_success (answering_world (js " ")) content st
             (answer_text (js " ")) (JObj [(js "response", JStr (js " "))])
             (js " ")); try reflexivity.
  discriminate.
Qed.

(** C9. On a well-formed answer of the service whose [response] field
    is a non-empty string, the generator returns that field trimmed,
    with each run of white space replaced by one hyphen and the double
    quotes removed; the name holds no white space and no double quote;
    and nothing is cut: a response without white space and quotes is
    returned whole, and for some response longer than 30 characters the
    name returned is longer than 30 characters. *)
Theorem C9_generated_name_sanitized_uncapped
  (W : World) (content : jsstring) (st : State)
  (response : jsstring) (parsed : json) (s : jsstring) :
  execSync W (ollama_command W content) = Ok response ->
  JSON_parse W response = Ok parsed ->
  get_prop parsed (js "response") = Ok (Some (JStr s)) ->
  s <> [] ->
  fst (generateFileName W content st)
  = Ret (replace_all (N.eqb DQUOTE) []
           (replace_runs is_space (js "-") (trim s))) /\
  (forall name, fst (generateFileName W content st) = Ret name ->
     Forall (fun c => is_space c = false) name /\ ~ In DQUOTE name) /\
  (Forall (fun c => is_space c = false) s -> ~ In DQUOTE s ->
     fst (generateFileName W content st) = Ret s) /\
  (exists W' content' st' response' name',
     (30 < List.length response')%nat /\
     execSync W' (ollama_command W' content') = Ok (answer_text response') /\
     JSON_parse W' (answer_text response')
       = Ok (JObj [(js "response", JStr response')]) /\
     fst (generateFileName W' content' st') = Ret name' /\
     (30 < List.length name')%nat).
Proof.
  intros Hexec Hparse Hget Hs.
  pose proof (generateFileName_success W content st _ _ _ Hexec Hparse Hget Hs)
    as Hrun.
  rewrite Hrun; cbn [fst]. fold (sanitize_name s).
  split; [reflexivity|]. split; [|split].
  - intros name [= <-]. destruct (sanitize_name_clean s) as [Hw Hq].
    split; [exact Hw|]. intros Hin.
    rewrite Forall_forall in Hq. apply Hq in Hin.
    now rewrite N.eqb_refl in Hin.
  - intros Hw Hq. f_equal. apply sanitize_name_id; [exact Hw|].
    rewrite Forall_forall. intros c Hc.
    destruct (DQUOTE =? c) eqn:E; [|reflexivity].
    apply N.eqb_eq in E. subst c. contradiction.
  - exists (answering_world (js "quarterly-planning-meeting-notes-2024")),
      (js "text"), (initial_state (js "text") None),
      (js "quarterly-planning-meeting-notes-2024"),
      (js "quarterly-planning-meeting-notes-2024").
    repeat split; try reflexivity; vm_compute; lia.
Qed.

Lemma C9_witness :
  fst (generateFileName
         (answering_world (js "  Meeting notes   for Q3  "))
         (js "agenda") (initial_state (js "agenda") None))
  = Ret (js "Meeting-notes-for-Q3").
Proof.
  exact (proj1 (C9_generated_name_sanitized_uncapped
                  (answering_world (js "  Meeting notes   for Q3  "))
                  (js "agenda") (initial_state (js "agenda") None)
                  (answer_text (js "  Meeting notes   for Q3  "))
                  (JObj [(js "response", JStr (js "  Meeting notes   for Q3  "))])
                  (js "  Meeting notes   for Q3  ")
                  eq_refl eq_refl eq_refl
                  (fun H => eq_ind (js "  Meeting notes   for Q3  ")
                              (fun l => match l with [] => False | _ => True end)
                              I [] H))).
Defined.

(* ================================================================== *)
(** ** The authorization callback listener *)

Lemma request_handler_run W r st qs :
  URL_searchParams W r REDIRECT_URI = Ok qs ->
  auth_promise st = Pending ->
  request_handler W r st =
  if truthy_str (searchParams_get qs (js "code"))
  then (Ret tt, served SUCCESS_PAGE
                  (Resolved (str_of (searchParams_get qs (js "code")))) st)
  else (Ret tt, served FAILURE_PAGE (Rejected MISSING_CODE) st).
Proof.
  intros Hurl Hp. unfold request_handler.
  rewrite (bind_lift_ok _ _ _ _ Hurl).
  unfold try_catch, assert_, res_end.
  destruct (truthy_str (searchParams_get qs (js "code"))).
  - unfold bind, ret, emit, server_close, settle; cbn.
    rewrite Hp. reflexivity.
  - unfold bind, throw, emit, server_close, settle; cbn.
    rewrite Hp. reflexivity.
Qed.

Lemma deliver_not_listening W reqs st :
  server st <> Listening -> deliver W reqs st = (Ret tt, st).
Proof.
  intros H. destruct reqs as [|r rest]; [reflexivity|]. cbn [deliver].
  destruct (server st); [reflexivity | contradiction | reflexivity].
Qed.

(** C6 (amended). For a request whose URL parses, reaching the open
    listener while the authorization is pending: if the [code] query
    parameter is present and not empty, the callback answers with the
    success page, closes the listener and resolves the authorization
    with that code; if it is absent or empty, the callback answers with
    the failure page, closes the listener and fails the authorization.
    In both cases the listener is closed after this request, exactly
    one response is sent, and no later request is handled. *)
Theorem C6_listener_serves_one_request
  (W : World) (st : State) (r : jsstring) (rest : list jsstring)
  (qs : list (jsstring * jsstring)) :
  URL_searchParams W r REDIRECT_URI = Ok qs ->
  server st = Listening ->
  auth_promise st = Pending ->
  let code := searchParams_get qs (js "code") in
  (truthy_str code = true ->
     deliver W (r :: rest) st
     = (Ret tt, served SUCCESS_PAGE (Resolved (str_of code)) st) /\
     fst (bind (deliver W (r :: rest)) (fun _ => await_promise) st)
     = Ret (str_of code)) /\
  (truthy_str code = false ->
     deliver W (r :: rest) st
     = (Ret tt, served FAILURE_PAGE (Rejected MISSING_CODE) st) /\
     fst (bind (deliver W (r :: rest)) (fun _ => await_promise) st)
     = Throw MISSING_CODE) /\
  server (snd (deliver W (r :: rest) st)) = Closed /\
  exists page,
    trace (snd (deliver W (r :: rest) st))
    = trace st ++ [HttpResponse page; ListenerClosed].
Proof.
  intros Hurl Hl Hp code.
  assert (Hrun : deliver W (r :: rest) st =
                 if truthy_str code
                 then (Ret tt, served SUCCESS_PAGE (Resolved (str_of code)) st)
                 else (Ret tt, served FAILURE_PAGE (Rejected MISSING_CODE) st)).
  { cbn [deliver]. rewrite Hl, (request_handler_run W r st qs Hurl Hp).
    fold code. destruct (truthy_str code);
      apply deliver_not_listening; discriminate. }
  repeat split.
  - rewrite Hrun, H. reflexivity.
  - unfold bind. rewrite Hrun, H. reflexivity.
  - rewrite Hrun, H. reflexivity.
  - unfold bind. rewrite Hrun, H. reflexivity.
  - rewrite Hrun. destruct (truthy_str code); reflexivity.
  - rewrite Hrun. destruct (truthy_str code); eexists; cbn;
      rewrite <- app_assoc; reflexivity.
Qed.

Lemma C6_witness :
  deliver (callback_world [js "/?code=4/0AbCdEf&scope=drive.file";
                           js "/favicon.ico"])
    [js "/?code=4/0AbCdEf&scope=drive.file"; js "/favicon.ico"]
    awaiting_state
  = (Ret tt,
     served SUCCESS_PAGE (Resolved (js "4/0AbCdEf")) awaiting_state).
Proof.
  exact (proj1 (proj1 (C6_listener_serves_one_request
                         (callback_world
                            [js "/?code=4/0AbCdEf&scope=drive.file";
                             js "/favicon.ico"])
                         awaiting_state
                         (js "/?code=4/0AbCdEf&scope=drive.file")
                         [js "/favicon.ico"]
                         [(js "code", js "4/0AbCdEf");
                          (js "scope", js "drive.file")]
                         eq_refl eq_refl eq_refl)
                 eq_refl)).
Defined.

(** C6 as stated fails: the URL [/?code=] contains a [code] query
    parameter (its value is the empty string), yet the callback answers
    with the failure page and fails the authorization. *)
Lemma C6_counterexample_empty_code :
  let W := callback_world [js "/?code="] in
  (exists qs value,
     URL_searchParams W (js "/?code=") REDIRECT_URI = Ok qs /\
     searchParams_get qs (js "code") = Some value) /\
  request_handler W (js "/?code=") awaiting_state
  = (Ret tt, served FAILURE_PAGE (Rejected MISSING_CODE) awaiting_state) /\
  ~ In (HttpResponse SUCCESS_PAGE)
       (trace (snd (request_handler W (js "/?code=") awaiting_state))).
Proof.
  cbv zeta. split; [|split].
  - exists [(js "code", [])], []. split; reflexivity.
  - reflexivity.
  - vm_compute. intros [H|[H|[]]]; discriminate.
Qed.

(** Inside [authenticate] the listener is open and the authorization
    pending when the first request arrives, so the promise settles with
    the outcome of that request. *)
Lemma await_authorization_code_first_request W st r rest qs :
  incoming_requests W = r :: rest ->
  URL_searchParams W r REDIRECT_URI = Ok qs ->
  fst (await_authorization_code W st)
  = if truthy_str (searchParams_get qs (js "code"))
    then Ret (str_of (searchParams_get qs (js "code")))
    else Throw MISSING_CODE.
Proof.
  intros Hreq Hurl. unfold await_authorization_code.
  unfold bind at 1. unfold bind at 1. rewrite bind_log, Hreq.
  set (st0 := logged W (js "Waiting for authentication...")
                (set_server Listening
                   (add_event (ListenStarted 3000) (set_promise Pending st)))).
  unfold bind. cbn [deliver].
  change (server st0) with Listening. cbv iota.
  rewrite (request_handler_run W r st0 qs Hurl eq_refl).
  destruct (truthy_str (searchParams_get qs (js "code")));
    rewrite deliver_not_listening by discriminate; reflexivity.
Qed.

(* ================================================================== *)
(** ** What a computation adds to the trace *)

Section Appends.

Variable P : event -> Prop.

Lemma appends_silent {A} (m : M A) : silent m -> appends P m.
Proof.
  intros H st. exists []. now rewrite H, app_nil_r.
Qed.

Lemma appends_ret {A} (a : A) : appends P (ret a).
Proof. now apply appends_silent. Qed.

Lemma appends_throw {A} e : appends P (@throw A e).
Proof. now apply appends_silent. Qed.

Lemma appends_exit {A} c : appends P (@process_exit A c).
Proof. now apply appends_silent. Qed.

Lemma appends_lift {A} (r : result A) : appends P (lift r).
Proof. apply appends_silent. intros st. now destruct r. Qed.

Lemma appends_emit e : P e -> appends P (emit e).
Proof. intros H st. exists [e]. split; [reflexivity | now constructor]. Qed.

Lemma appends_bind {A B} (m : M A) (k : A -> M B) :
  appends P m -> (forall a, appends P (k a)) -> appends P (bind m k).
Proof.
  intros Hm Hk st. unfold bind.
  destruct (Hm st) as [l [Hl HP]].
  destruct (m st) as [[a|e|c|e|] st'] eqn:E; cbn [snd] in Hl;
    try (exists l; now split).
  destruct (Hk a st') as [l' [Hl' HP']].
  exists (l ++ l'). split.
  - now rewrite Hl', Hl, app_assoc.
  - apply Forall_app; now split.
Qed.

Lemma appends_try_catch {A} (m : M A) (h : jserror -> M A) :
  appends P m -> (forall e, appends P (h e)) -> appends P (try_catch m h).
Proof.
  intros Hm Hh st. unfold try_catch.
  destruct (Hm st) as [l [Hl HP]].
  destruct (m st) as [[a|e|c|e|] st'] eqn:E; cbn [snd] in Hl;
    try (exists l; now split).
  destruct (Hh e st') as [l' [Hl' HP']].
  exists (l ++ l'). split.
  - now rewrite Hl', Hl, app_assoc.
  - apply Forall_app; now split.
Qed.

Lemma appends_when c (m : M unit) : appends P m -> appends P (when c m).
Proof. destruct c; [trivial | intros _; apply appends_ret]. Qed.

Lemma appends_assert b msg : appends P (assert_ b msg).
Proof. destruct b; [apply appends_ret | apply appends_throw]. Qed.

Lemma appends_log W msg : (forall l, P (Stdout l)) -> appends P (log W msg).
Proof.
  intros H st. exists [Stdout (log_line W (clock_reads st) msg)].
  split; [reflexivity | repeat constructor; apply H].
Qed.

Lemma appends_errorLog W msg :
  (forall l, P (Stderr l)) -> appends P (errorLog W msg).
Proof.
  intros H st. exists [Stderr (log_line W (clock_reads st) msg)].
  split; [reflexivity | repeat constructor; apply H].
Qed.

Lemma appends_request_handler W r :
  (forall b, P (HttpResponse b)) -> P ListenerClosed ->
  appends P (request_handler W r).
Proof.
  intros Hr Hc. unfold request_handler.
  assert (Hclose : appends P server_close).
  { intros st. exists [ListenerClosed]. split; [reflexivity | now repeat constructor]. }
  assert (Hsettle : forall p, appends P (settle p)).
  { intros p. apply appends_silent. intros st. unfold settle.
    now destruct (auth_promise st). }
  apply appends_bind; [apply appends_lift|]. intros qs.
  apply appends_try_catch.
  - apply appends_bind; [apply appends_assert|]. intros _.
    apply appends_bind; [apply appends_emit, Hr|]. intros _.
    apply appends_bind; [apply Hclose|]. intros _. apply Hsettle.
  - intros e.
    apply appends_bind; [apply appends_emit, Hr|]. intros _.
    apply appends_bind; [apply Hclose|]. intros _. apply Hsettle.
Qed.

Lemma appends_deliver W reqs :
  (forall b, P (HttpResponse b)) -> P ListenerClosed ->
  appends P (deliver W reqs).
Proof.
  intros Hr Hc. induction reqs as [|r rest IH]; intros st.
  - exists []. now rewrite app_nil_r.
  - cbn [deliver]. destruct (server st);
      try (exists []; now rewrite app_nil_r).
    destruct (appends_request_handler W r Hr Hc st) as [l [Hl HP]].
    destruct (request_handler W r st) as [[a|e|c|e|] st'] eqn:E;
      cbn [snd] in Hl; try (exists l; now split).
    destruct (IH st') as [l' [Hl' HP']].
    exists (l ++ l'). split.
    + now rewrite Hl', Hl, app_assoc.
    + apply Forall_app; now split.
Qed.

End Appends.

(** [authenticate] produces no event of the upload pipeline. *)
Lemma authenticate_no_pipeline_event W :
  appends (fun e => is_pipeline_event e = false) (authenticate W).
Proof.
  set (P := fun e => is_pipeline_event e = false).
  assert (Hlog : forall msg, appends P (log W msg)).
  { intros msg. apply appends_log. reflexivity. }
  assert (Hcred : forall c, appends P (setCredentials c)).
  { intros c. now apply appends_silent. }
  unfold authenticate. apply appends_bind.
  - unfold obtain_credentials. apply appends_try_catch.
    + unfold load_stored_token.
      apply appends_bind; [apply Hlog|]. intros _.
      apply appends_bind.
      { apply appends_silent. intros st. unfold readFileSync_token.
        now destruct (token_file st). }
      intros token. apply appends_bind; [apply appends_lift|]. intros parsed.
      apply appends_bind; [apply Hcred | intros _; apply Hlog].
    + intros _. unfold fresh_authorization.
      apply appends_bind; [apply Hlog|]. intros _.
      apply appends_bind; [now apply appends_emit|]. intros _.
      apply appends_bind; [apply appends_lift|]. intros _.
      apply appends_bind.
      { unfold await_authorization_code.
        apply appends_bind; [now apply appends_silent|]. intros _.
        apply appends_bind.
        { intros st. exists [ListenStarted 3000].
          split; [reflexivity | now repeat constructor]. }
        intros _. apply appends_bind; [apply Hlog|]. intros _.
        apply appends_bind; [now apply appends_deliver|]. intros _.
        apply appends_silent. intros st. unfold await_promise.
        now destruct (auth_promise st). }
      intros code. apply appends_bind; [now apply appends_emit|]. intros _.
      apply appends_bind; [apply appends_lift|]. intros tokens.
      apply appends_bind; [apply Hcred|]. intros _.
      apply appends_bind; [|intros _; apply Hlog].
      unfold writeFileSync_token.
      apply appends_bind; [now apply appends_emit|]. intros _.
      apply appends_silent. intros st. now destruct (fs_write_failure W).
  - intros _. apply appends_when.
    apply appends_bind; [apply Hlog | intros _; apply appends_exit].
Qed.

(* ================================================================== *)
(** ** Independence of the token file *)

Lemma same_but_token_file_fields a b :
  same_but_token_file a b <->
  trace a = trace b /\ clipboard a = clipboard b /\
  credentials a = credentials b /\ clock_reads a = clock_reads b /\
  server a = server b /\ auth_promise a = auth_promise b.
Proof.
  unfold same_but_token_file, set_token_file. split.
  - intros H; injection H; auto 10.
  - intros (-> & -> & -> & -> & -> & ->). reflexivity.
Qed.

Ltac token_blind_step :=
  let a := fresh "a" in
  let b := fresh "b" in
  let H := fresh "H" in
  intros a b H; apply same_but_token_file_fields in H;
  destruct a, b; cbn in H;
  destruct H as (? & ? & ? & ? & ? & ?); subst;
  rewrite same_but_token_file_fields.

Lemma tb_ret {A} (a : A) : token_blind (ret a).
Proof. token_blind_step. cbn. auto 10. Qed.

Lemma tb_throw {A} e : token_blind (@throw A e).
Proof. token_blind_step. cbn. auto 10. Qed.

Lemma tb_exit {A} c : token_blind (@process_exit A c).
Proof. token_blind_step. cbn. auto 10. Qed.

Lemma tb_lift {A} (r : result A) : token_blind (lift r).
Proof. token_blind_step. destruct r; cbn; auto 10. Qed.

Lemma tb_emit e : token_blind (emit e).
Proof. token_blind_step. cbn. auto 10. Qed.

Lemma tb_log W msg : token_blind (log W msg).
Proof. token_blind_step. cbn. auto 10. Qed.

Lemma tb_setCredentials c : token_blind (setCredentials c).
Proof. token_blind_step. cbn. auto 10. Qed.

Lemma tb_server_close : token_blind server_close.
Proof. token_blind_step. cbn. auto 10. Qed.

Lemma tb_settle p : token_blind (settle p).
Proof.
  token_blind_step. unfold settle; cbn.
  destruct auth_promise1; cbn; auto 10.
Qed.

Lemma tb_await_promise : token_blind await_promise.
Proof.
  token_blind_step. unfold await_promise; cbn.
  destruct auth_promise1; cbn; auto 10.
Qed.

Lemma tb_bind {A B} (m : M A) (k : A -> M B) :
  token_blind m -> (forall a, token_blind (k a)) -> token_blind (bind m k).
Proof.
  intros Hm Hk a b H. unfold bind.
  destruct (Hm a b H) as [Ho Hs].
  destruct (m a) as [oa sa], (m b) as [ob sb]; cbn [fst snd] in Ho, Hs.
  subst ob. destruct oa; try (now split).
  apply Hk, Hs.
Qed.

Lemma tb_try_catch {A} (m : M A) (h : jserror -> M A) :
  token_blind m -> (forall e, token_blind (h e)) ->
  token_blind (try_catch m h).
Proof.
  intros Hm Hh a b H. unfold try_catch.
  destruct (Hm a b H) as [Ho Hs].
  destruct (m a) as [oa sa], (m b) as [ob sb]; cbn [fst snd] in Ho, Hs.
  subst ob. destruct oa; try (now split).
  apply Hh, Hs.
Qed.

Lemma tb_request_handler W r : token_blind (request_handler W r).
Proof.
  unfold request_handler.
  apply tb_bind; [apply tb_lift|]. intros qs.
  apply tb_try_catch; [|intros e];
    repeat (apply tb_bind; [|intros _]);
    try apply tb_settle; try apply tb_server_close; try apply tb_emit.
  unfold assert_. destruct (truthy_str _); [apply tb_ret | apply tb_throw].
Qed.

Lemma tb_deliver W reqs : token_blind (deliver W reqs).
Proof.
  induction reqs as [|r rest IH]; intros a b H.
  - now split.
  - cbn [deliver].
    pose proof (proj1 (same_but_token_file_fields a b) H)
      as (_ & _ & _ & _ & Hsrv & _).
    rewrite <- Hsrv. destruct (server a); try (now split).
    destruct (tb_request_handler W r a b H) as [Ho Hs].
    destruct (request_handler W r a) as [oa sa],
             (request_handler W r b) as [ob sb]; cbn [fst snd] in Ho, Hs.
    subst ob. destruct oa; try (now split).
    apply IH, Hs.
Qed.

Lemma tb_fresh_authorization W : token_blind (fresh_authorization W).
Proof.
  unfold fresh_authorization, await_authorization_code, writeFileSync_token.
  repeat (apply tb_bind; [|intros ?]);
    try apply tb_log; try apply tb_emit; try apply tb_lift;
    try apply tb_setCredentials; try apply tb_deliver;
    try apply tb_await_promise;
    token_blind_step; cbn; try destruct (fs_write_failure W); cbn; auto 10.
Qed.

Lemma tb_auth_only_gate W :
  token_blind (when (ONLY_AUTH W)
                 (bind (log W (js "Only authentication requested..."))
                       (fun _ => process_exit 0%Z))).
Proof.
  unfold when. destruct (ONLY_AUTH W); [|apply tb_ret].
  apply tb_bind; [apply tb_log | intros _; apply tb_exit].
Qed.

(* ================================================================== *)
(** ** [authenticate] *)

Lemma obtain_credentials_stored W st text record :
  token_file st = Some text ->
  JSON_parse W text = Ok record ->
  obtain_credentials W st
  = (Ret tt,
     logged W (js "Token loaded successfully.")
       (set_credentials (Some record)
          (logged W (js "Attempting to read token from " ++ TOKEN_PATH W) st))).
Proof.
  intros Hfile Hparse.
  unfold obtain_credentials, try_catch, load_stored_token.
  rewrite bind_log.
  unfold bind at 1. unfold readFileSync_token at 1. cbn [token_file logged add_event tick].
  rewrite Hfile, (bind_lift_ok _ _ _ _ Hparse). reflexivity.
Qed.

Lemma obtain_credentials_missing W st :
  token_file st = None ->
  obtain_credentials W st
  = fresh_authorization W
      (logged W (js "Attempting to read token from " ++ TOKEN_PATH W) st).
Proof.
  intros Hfile.
  unfold obtain_credentials, try_catch, load_stored_token.
  rewrite bind_log.
  unfold bind at 1. unfold readFileSync_token at 1. cbn [token_file logged add_event tick].
  rewrite Hfile. reflexivity.
Qed.

Lemma obtain_credentials_corrupt W st text e :
  token_file st = Some text ->
  JSON_parse W text = Err e ->
  obtain_credentials W st
  = fresh_authorization W
      (logged W (js "Attempting to read token from " ++ TOKEN_PATH W) st).
Proof.
  intros Hfile Hparse.
  unfold obtain_credentials, try_catch, load_stored_token.
  rewrite bind_log.
  unfold bind at 1. unfold readFileSync_token at 1. cbn [token_file logged add_event tick].
  rewrite Hfile, (bind_lift_err _ _ _ _ Hparse). reflexivity.
Qed.

(** C5. With a token file that parses, [authenticate] installs the
    stored record in the API client and completes after two log lines:
    it adds nothing else to the trace (no browser is opened, no listener
    started) and leaves the listener as it was.  A missing token file
    and a token file that does not parse are treated alike: both lead
    to the fresh-authorization path, and from states that differ only
    in the token file [authenticate] ends the same way with the same
    trace and the same credentials. *)
Theorem C5_stored_token_or_fresh_authorization
  (W : World) (st : State) (text : jsstring) (record : json)
  (st_missing st_corrupt : State) (bad : jsstring) (e : jserror) :
  token_file st = Some text ->
  JSON_parse W text = Ok record ->
  token_file st_missing = None ->
  token_file st_corrupt = Some bad ->
  JSON_parse W bad = Err e ->
  same_but_token_file st_missing st_corrupt ->
  let attempt := js "Attempting to read token from " ++ TOKEN_PATH W in
  (fst (authenticate W st) = (if ONLY_AUTH W then Exit 0%Z else Ret tt) /\
   credentials (snd (authenticate W st)) = Some record /\
   server (snd (authenticate W st)) = server st /\
   exists lines,
     trace (snd (authenticate W st)) = trace st ++ List.map Stdout lines) /\
  (obtain_credentials W st_missing
     = fresh_authorization W (logged W attempt st_missing) /\
   obtain_credentials W st_corrupt
     = fresh_authorization W (logged W attempt st_corrupt) /\
   fst (authenticate W st_missing) = fst (authenticate W st_corrupt) /\
   trace (snd (authenticate W st_missing))
     = trace (snd (authenticate W st_corrupt)) /\
   credentials (snd (authenticate W st_missing))
     = credentials (snd (authenticate W st_corrupt))).
Proof.
  intros Hfile Hparse Hnone Hbad Hfail Hsame attempt.
  split.
  - unfold authenticate, bind.
    rewrite (obtain_credentials_stored W st text record Hfile Hparse).
    unfold when. destruct (ONLY_AUTH W).
    + rewrite log_run. repeat split.
      eexists [_; _; _]. cbn. rewrite <- !app_assoc. reflexivity.
    + repeat split.
      eexists [_; _]. cbn. rewrite <- !app_assoc. reflexivity.
  - pose proof (obtain_credentials_missing W st_missing Hnone) as Hm.
    pose proof (obtain_credentials_corrupt W st_corrupt bad e Hbad Hfail) as Hc.
    split; [exact Hm|]. split; [exact Hc|].
    assert (Hblind : token_blind
              (bind (bind (log W attempt) (fun _ => fresh_authorization W))
                    (fun _ => when (ONLY_AUTH W)
                       (bind (log W (js "Only authentication requested..."))
                             (fun _ => process_exit 0%Z))))).
    { apply tb_bind; [|intros _; apply tb_auth_only_gate].
      apply tb_bind; [apply tb_log | intros _; apply tb_fresh_authorization]. }
    assert (Heq : forall s0,
              obtain_credentials W s0 = fresh_authorization W (logged W attempt s0) ->
              authenticate W s0
              = bind (bind (log W attempt) (fun _ => fresh_authorization W))
                     (fun _ => when (ONLY_AUTH W)
                        (bind (log W (js "Only authentication requested..."))
                              (fun _ => process_exit 0%Z))) s0).
    { intros s0 H0. unfold authenticate, bind.
      rewrite H0, log_run. reflexivity. }
    rewrite (Heq _ Hm), (Heq _ Hc).
    destruct (Hblind st_missing st_corrupt Hsame) as [Ho Hs].
    apply same_but_token_file_fields in Hs.
    destruct Hs as (Ht & _ & Hcr & _).
    auto.
Qed.

Lemma C5_witness :
  fst (authenticate (approving_world [])
         (initial_state (js "text") (Some stored_token_text)))
  = Ret tt /\
  fst (authenticate (approving_world []) (initial_state (js "text") None))
  = fst (authenticate (approving_world [])
           (initial_state (js "text") (Some (js "{")))).
Proof.
  pose proof (C5_stored_token_or_fresh_authorization
                (approving_world [])
                (initial_state (js "text") (Some stored_token_text))
                stored_token_text stored_token_record
                (initial_state (js "text") None)
                (initial_state (js "text") (Some (js "{")))
                (js "{") (SyntaxError (js "Unexpected end of JSON input"))
                eq_refl eq_refl eq_refl eq_refl eq_refl eq_refl) as H.
  cbv zeta in H.
  exact (conj (proj1 (proj1 H)) (proj1 (proj2 (proj2 (proj2 H))))).
Defined.

(* ================================================================== *)
(** ** The [--auth-only] flag *)

Lemma authenticate_auth_only_never_returns W st :
  ONLY_AUTH W = true -> forall u, fst (authenticate W st) <> Ret u.
Proof.
  intros Hflag u. unfold authenticate, bind, when. rewrite Hflag.
  destruct (obtain_credentials W st) as [[[]|e|c|e|] st']; cbn;
    discriminate.
Qed.

(** With [--auth-only], whatever happens during authorization, [main]
    adds no event of the upload pipeline to the trace. *)
Lemma main_auth_only_no_pipeline_event W st :
  ONLY_AUTH W = true ->
  exists l, trace (snd (main W st)) = trace st ++ l /\
            Forall (fun e => is_pipeline_event e = false) l.
Proof.
  intros Hflag.
  pose proof (authenticate_auth_only_never_returns W st Hflag) as Hnever.
  destruct (authenticate_no_pipeline_event W st) as [l [Hl HP]].
  unfold main, try_catch, bind.
  destruct (authenticate W st) as [[u|e|c|e|] st'] eqn:E; cbn [fst snd] in *;
    try (exists l; now split).
  - now destruct (Hnever u).
  - rewrite errorLog_run. cbn [snd error_logged add_event trace tick].
    exists (l ++ [Stderr (log_line W (clock_reads st')
                            (js "Error: " ++ err_message e))]).
    split; [now rewrite Hl, app_assoc|].
    apply Forall_app; split; [exact HP | now repeat constructor].
Qed.

(** C7. With [--auth-only], once the credentials are installed the
    process logs one line and exits with code 0: [main] ends in
    [process.exit(0)], the trace grows by that log line only, no event
    of the upload pipeline occurs, and with the credentials configured
    the whole script exits with code 0. *)
Theorem C7_auth_only_exits_before_upload
  (W : World) (st st1 : State) :
  ONLY_AUTH W = true ->
  obtain_credentials W st = (Ret tt, st1) ->
  main W st
  = (Exit 0%Z, logged W (js "Only authentication requested...") st1) /\
  exit_code (fst (main W st)) = Some 0%Z /\
  (exists line, trace (snd (main W st)) = trace st1 ++ [Stdout line]) /\
  (exists l, trace (snd (main W st)) = trace st ++ l /\
             Forall (fun e => is_pipeline_event e = false) l) /\
  (nonempty (CLIENT_ID W) = true -> nonempty (CLIENT_SECRET W) = true ->
   nonempty (FOLDER_ID W) = true ->
   exit_code (fst (script W st)) = Some 0%Z).
Proof.
  intros Hflag Hcred.
  assert (Hmain : main W st
                  = (Exit 0%Z,
                     logged W (js "Only authentication requested...") st1)).
  { unfold main, try_catch, authenticate, bind, when.
    rewrite Hcred, Hflag, log_run. reflexivity. }
  split; [exact Hmain|]. split; [now rewrite Hmain|].
  split; [rewrite Hmain; eexists; reflexivity|].
  split; [now apply main_auth_only_no_pipeline_event|].
  intros H1 H2 H3. unfold script, when.
  destruct (includes (argv W) (js "--help") || includes (argv W) (js "-h"));
    [reflexivity|].
  destruct (includes (argv W) (js "--version") || includes (argv W) (js "-v"));
    [reflexivity|].
  unfold bind at 1. unfold ret at 1.
  unfold bind at 1. unfold ret at 1.
  unfold bind at 1. unfold try_catch at 1.
  rewrite H1, H2, H3. unfold assert_, bind at 1, ret at 1.
  unfold bind at 1, ret at 1. unfold ret at 1.
  now rewrite Hmain.
Qed.

Lemma C7_witness :
  exit_code
    (fst (main (approving_world [js "bun"; js "index.js"; js "--auth-only"])
            (initial_state (js "text") None)))
  = Some 0%Z.
Proof.
  refine (proj1 (proj2
    (C7_auth_only_exits_before_upload
       (approving_world [js "bun"; js "index.js"; js "--auth-only"])
       (initial_state (js "text") None)
       (snd (obtain_credentials
               (approving_world [js "bun"; js "index.js"; js "--auth-only"])
               (initial_state (js "text") None)))
       _ _))); vm_compute; reflexivity.
Defined.

(* ================================================================== *)
(** ** The upload pipeline *)

Lemma uploadFile_unreadable W st e :
  clipboard_read_failure W = Some e ->
  uploadFile W st = (Throw e, pipeline_start st).
Proof.
  intros Hread. unfold uploadFile, clipboard_readSync.
  rewrite bind_emit, bind_assoc, bind_emit.
  unfold bind. rewrite Hread. reflexivity.
Qed.

Lemma uploadFile_empty W st :
  clipboard_read_failure W = None ->
  clipboard st = [] ->
  uploadFile W st
  = (Exit 1%Z,
     error_logged W (js "Clipboard is empty. Please copy some text to upload.")
       (pipeline_start st)).
Proof.
  intros Hread Hclip. unfold uploadFile, clipboard_readSync.
  rewrite bind_emit, bind_assoc, bind_emit.
  unfold bind at 1. rewrite Hread.
  cbn [clipboard add_event]. rewrite Hclip. reflexivity.
Qed.

Lemma uploadFile_nonempty W st :
  clipboard_read_failure W = None ->
  clipboard st <> [] ->
  uploadFile W st
  = upload_content W (modifyClipboardContent (clipboard st))
      (logged W (js "Clipboard content modified successfully.")
         (logged W (js "Clipboard content retrieved successfully.")
            (pipeline_start st))).
Proof.
  intros Hread Hclip. unfold uploadFile, clipboard_readSync.
  rewrite bind_emit, bind_assoc, bind_emit.
  unfold bind at 1. rewrite Hread.
  cbn [clipboard add_event].
  pose proof (modify_nonempty (clipboard st) Hclip) as Hmod.
  destruct (clipboard st) as [|c s] eqn:Ec; [contradiction|].
  destruct (modifyClipboardContent (c :: s)) as [|c' s'] eqn:Em;
    [contradiction|].
  reflexivity.
Qed.

Lemma generateFileName_keeps_clipboard W content :
  keeps_clipboard (generateFileName W content).
Proof.
  intros st. rewrite generateFileName_run.
  destruct (service_name W content); reflexivity.
Qed.

Lemma generateFileName_no_clipboard_write W content :
  appends (fun e => is_clipboard_write e = false) (generateFileName W content).
Proof.
  intros st. rewrite generateFileName_run.
  destruct (service_name W content); cbn.
  - eexists [_; _; _]. rewrite <- !app_assoc. split; [reflexivity|].
    repeat constructor.
  - eexists [_; _; _; _]. rewrite <- !app_assoc. split; [reflexivity|].
    repeat constructor.
Qed.

(** The last [try]/[catch] of [uploadFile] always completes. *)
Lemma drive_steps_caught W request st :
  fst (try_catch (drive_steps W request)
         (fun error =>
            errorLog W (js "Error during file upload: " ++ err_message error))
         st) = Ret tt.
Proof.
  unfold try_catch, drive_steps.
  rewrite bind_log, bind_emit.
  destruct (drive_files_create W request) as [data|e] eqn:Hc.
  2:{ rewrite (bind_lift_err _ _ _ _ eq_refl). reflexivity. }
  rewrite (bind_lift_ok _ _ _ _ eq_refl).
  unfold assert_ at 1. destruct (truthy_str (data_id data)); [|reflexivity].
  unfold bind at 1. unfold ret at 1.
  rewrite bind_log, bind_emit.
  destruct (drive_permissions_create W (str_of (data_id data))) as [u|e] eqn:Hp.
  2:{ rewrite (bind_lift_err _ _ _ _ eq_refl). reflexivity. }
  rewrite (bind_lift_ok _ _ _ _ eq_refl), bind_log.
  unfold assert_ at 1.
  destruct (truthy_str (data_webViewLink data)); [|reflexivity].
  unfold bind at 1. unfold ret at 1.
  unfold bind at 1. unfold clipboard_writeSync at 1.
  destruct (clipboard_write_failure W); reflexivity.
Qed.

Lemma upload_content_completes W content st :
  fst (upload_content W content st) = Ret tt.
Proof.
  unfold upload_content. unfold bind at 1.
  destruct (generateFileName_never_fails W content st) as [name Hname].
  destruct (generateFileName W content st) as [o st1]. cbn [fst] in Hname.
  subst o. unfold bind at 1. unfold getDate at 1.
  apply drive_steps_caught.
Qed.

(** When the file is created and the permission call fails, the [catch]
    block logs the error; the clipboard is not written. *)
Lemma drive_steps_permission_failure W request st data e :
  drive_files_create W request = Ok data ->
  truthy_str (data_id data) = true ->
  drive_permissions_create W (str_of (data_id data)) = Err e ->
  try_catch (drive_steps W request)
    (fun error =>
       errorLog W (js "Error during file upload: " ++ err_message error)) st
  = (Ret tt,
     error_logged W (js "Error during file upload: " ++ err_message e)
       (add_event (DrivePermission (str_of (data_id data)))
          (logged W (js "File uploaded successfully.")
             (add_event (DriveCreate request)
                (logged W (js "Uploading file to Google Drive...") st))))).
Proof.
  intros Hc Hid Hp. unfold try_catch, drive_steps.
  rewrite bind_log, bind_emit, (bind_lift_ok _ _ _ _ Hc), Hid.
  unfold assert_ at 1. unfold bind at 1. unfold ret at 1.
  rewrite bind_log, bind_emit, (bind_lift_err _ _ _ _ Hp).
  reflexivity.
Qed.

Lemma main_after_authenticate W st st1 :
  authenticate W st = (Ret tt, st1) ->
  main W st
  = try_catch (uploadFile W)
      (fun error => errorLog W (js "Error: " ++ err_message error)) st1.
Proof.
  intros Hauth. unfold main, try_catch, bind. now rewrite Hauth.
Qed.

(** C3 (amended). Once authentication has completed: if the clipboard
    is read as the empty string, the process logs the error and exits
    with code 1; if reading the clipboard throws, the error reaches the
    handler of [main], which logs it, and the process ends with code 0.
    In both cases the pipeline adds three events to the trace (the
    Drive client, the clipboard read, the error line), none of which is
    a network call. *)
Theorem C3_empty_or_unreadable_clipboard
  (W : World) (st st1 : State) :
  authenticate W st = (Ret tt, st1) ->
  (clipboard_read_failure W = None -> clipboard st1 = [] ->
     main W st
     = (Exit 1%Z,
        error_logged W
          (js "Clipboard is empty. Please copy some text to upload.")
          (pipeline_start st1)) /\
     exit_code (fst (main W st)) = Some 1%Z) /\
  (forall e, clipboard_read_failure W = Some e ->
     main W st
     = (Ret tt,
        error_logged W (js "Error: " ++ err_message e) (pipeline_start st1)) /\
     exit_code (fst (main W st)) = Some 0%Z) /\
  ((clipboard_read_failure W = None -> clipboard st1 = []) ->
   exists line,
     trace (snd (main W st))
     = trace st1 ++ [DriveClientCreated; ClipboardRead; Stderr line] /\
     Forall (fun ev => is_network_call ev = false)
       [DriveClientCreated; ClipboardRead; Stderr line]).
Proof.
  intros Hauth.
  pose proof (main_after_authenticate W st st1 Hauth) as Hmain.
  assert (Hempty : clipboard_read_failure W = None -> clipboard st1 = [] ->
            main W st
            = (Exit 1%Z,
               error_logged W
                 (js "Clipboard is empty. Please copy some text to upload.")
                 (pipeline_start st1))).
  { intros Hread Hclip. rewrite Hmain. unfold try_catch.
    now rewrite (uploadFile_empty W st1 Hread Hclip). }
  assert (Hthrow : forall e, clipboard_read_failure W = Some e ->
            main W st
            = (Ret tt,
               error_logged W (js "Error: " ++ err_message e)
                 (pipeline_start st1))).
  { intros e Hread. rewrite Hmain. unfold try_catch.
    now rewrite (uploadFile_unreadable W st1 e Hread). }
  split; [|split].
  - intros Hread Hclip. rewrite (Hempty Hread Hclip). now split.
  - intros e Hread. rewrite (Hthrow e Hread). now split.
  - intros Hcase.
    destruct (clipboard_read_failure W) as [e|] eqn:Hread.
    + rewrite (Hthrow e eq_refl). eexists. cbn. rewrite <- !app_assoc.
      split; [reflexivity | repeat constructor].
    + rewrite (Hempty eq_refl (Hcase eq_refl)). eexists. cbn.
      rewrite <- !app_assoc. split; [reflexivity | repeat constructor].
Qed.

Lemma C3_witness :
  exit_code
    (fst (main (drive_world no_grant) (stored_start [])))
  = Some 1%Z.
Proof.
  refine (proj2 (proj1
    (C3_empty_or_unreadable_clipboard
       (drive_world no_grant) (stored_start [])
       (snd (authenticate (drive_world no_grant) (stored_start [])))
       _) _ _)); vm_compute; reflexivity.
Defined.

(** C3 as stated fails: with a stored token and a clipboard whose read
    throws, the script logs the error and runs to its end, so the
    process ends with code 0 and not with code 1. *)
Lemma C3_counterexample_unreadable_clipboard :
  clipboard_read_failure unreadable_world
  = Some (Error (js "Command failed: pbpaste")) /\
  exit_code (fst (script unreadable_world (stored_start (js "text"))))
  = Some 0%Z /\
  exit_code (fst (script unreadable_world (stored_start (js "text"))))
  <> Some 1%Z.
Proof.
  split; [reflexivity|]. split; [vm_compute; reflexivity|].
  vm_compute. discriminate.
Qed.

Lemma upload_content_permission_failure W content st data e :
  (forall request, req_body request = content ->
                   drive_files_create W request = Ok data) ->
  truthy_str (data_id data) = true ->
  drive_permissions_create W (str_of (data_id data)) = Err e ->
  exists name st1 request,
    generateFileName W content st = (Ret name, st1) /\
    upload_content W content st
    = (Ret tt,
       error_logged W (js "Error during file upload: " ++ err_message e)
         (add_event (DrivePermission (str_of (data_id data)))
            (logged W (js "File uploaded successfully.")
               (add_event (DriveCreate request)
                  (logged W (js "Uploading file to Google Drive...")
                     (tick st1)))))).
Proof.
  intros Hc Hid Hp.
  destruct (generateFileName_never_fails W content st) as [name Hname].
  destruct (generateFileName W content st) as [o st1] eqn:Hgen.
  cbn [fst] in Hname. subst o.
  exists name, st1,
    (build_request W name (date_parts (clock W (clock_reads st1))) content).
  split; [reflexivity|].
  unfold upload_content. unfold bind at 1. rewrite Hgen.
  unfold bind at 1. unfold getDate at 1.
  apply drive_steps_permission_failure; [now apply Hc | exact Hid | exact Hp].
Qed.

(** C4. When the create call for the normalised content succeeds with
    a file id and the permission call then fails,
    the error is logged, [main] completes (the process ends with code
    0) and the clipboard keeps the content it had: no write to the
    clipboard occurs. *)
Theorem C4_permission_failure_keeps_clipboard
  (W : World) (st0 st : State) (data : drive_data) (e : jserror) :
  authenticate W st0 = (Ret tt, st) ->
  clipboard_read_failure W = None ->
  clipboard st <> [] ->
  (forall request,
     req_body request = modifyClipboardContent (clipboard st) ->
     drive_files_create W request = Ok data) ->
  truthy_str (data_id data) = true ->
  drive_permissions_create W (str_of (data_id data)) = Err e ->
  fst (main W st0) = Ret tt /\
  exit_code (fst (main W st0)) = Some 0%Z /\
  clipboard (snd (main W st0)) = clipboard st /\
  (exists st',
     snd (main W st0)
     = error_logged W (js "Error during file upload: " ++ err_message e) st') /\
  (exists l, trace (snd (main W st0)) = trace st ++ l /\
             Forall (fun ev => is_clipboard_write ev = false) l).
Proof.
  intros Hauth Hread Hclip Hc Hid Hp.
  rewrite (main_after_authenticate W st0 st Hauth). unfold try_catch.
  rewrite (uploadFile_nonempty W st Hread Hclip).
  set (content := modifyClipboardContent (clipboard st)).
  set (st_checked := logged W _ (logged W _ (pipeline_start st))).
  destruct (upload_content_permission_failure W content st_checked data e
              Hc Hid Hp) as (name & st1 & request & Hgen & Hrun).
  rewrite Hrun. cbn [fst snd exit_code].
  pose proof (generateFileName_keeps_clipboard W content st_checked) as Hkeep.
  destruct (generateFileName_no_clipboard_write W content st_checked)
    as [l [Hl HP]].
  rewrite Hgen in Hkeep, Hl. cbn [snd] in Hkeep, Hl.
  repeat split.
  - cbn. exact Hkeep.
  - eexists; reflexivity.
  - cbn. rewrite Hl. subst st_checked. cbn. rewrite <- !app_assoc.
    eexists. split; [reflexivity|].
    repeat (apply Forall_cons; [reflexivity|]).
    apply Forall_app; split; [exact HP | repeat constructor].
Qed.

Lemma C4_witness :
  fst (main (drive_world no_grant) (stored_start (js "Hello"))) = Ret tt /\
  clipboard (snd (main (drive_world no_grant) (stored_start (js "Hello"))))
  = js "Hello".
Proof.
  assert (H := C4_permission_failure_keeps_clipboard
                 (drive_world no_grant) (stored_start (js "Hello"))
                 (snd (authenticate (drive_world no_grant)
                         (stored_start (js "Hello"))))
                 created_file (Error (js "Insufficient permissions"))).
  refine ((fun H' => conj (proj1 H') (proj1 (proj2 (proj2 H'))))
            (H _ _ _ (fun _ _ => eq_refl) eq_refl eq_refl));
    vm_compute; try reflexivity; discriminate.
Defined.

(** C10. Normalisation maps a non-empty string to a non-empty string,
    so when the clipboard is read as a non-empty string the check on
    the normalised content passes: [uploadFile] goes on to generate the
    name and completes, and neither [process.exit(1)] is reached. *)
Theorem C10_normalized_content_check_passes
  (W : World) (st : State) :
  clipboard_read_failure W = None ->
  clipboard st <> [] ->
  modifyClipboardContent (clipboard st) <> [] /\
  nonempty (modifyClipboardContent (clipboard st)) = true /\
  uploadFile W st
  = upload_content W (modifyClipboardContent (clipboard st))
      (logged W (js "Clipboard content modified successfully.")
         (logged W (js "Clipboard content retrieved successfully.")
            (pipeline_start st))) /\
  fst (uploadFile W st) = Ret tt /\
  (forall s, s <> [] -> modifyClipboardContent s <> []).
Proof.
  intros Hread Hclip.
  pose proof (modify_nonempty (clipboard st) Hclip) as Hmod.
  split; [exact Hmod|]. split.
  { destruct (modifyClipboardContent (clipboard st)); [contradiction|reflexivity]. }
  split; [apply uploadFile_nonempty; assumption|]. split.
  - rewrite (uploadFile_nonempty W st Hread Hclip).
    apply upload_content_completes.
  - apply modify_nonempty.
Qed.

Lemma C10_witness :
  fst (uploadFile (drive_world (fun _ => Ok tt))
         (stored_start [TAB; BULLET])) = Ret tt.
Proof.
  refine (proj1 (proj2 (proj2 (proj2
    (C10_normalized_content_check_passes
       (drive_world (fun _ => Ok tt)) (stored_start [TAB; BULLET])
       eq_refl _))))).
  discriminate.
Defined.

(* ================================================================== *)
(** * Further properties of the code *)
(* ================================================================== *)

(** ** Normalisation *)

Lemma modify_app (a b : jsstring) :
  modifyClipboardContent (a ++ b)
  = modifyClipboardContent a ++ modifyClipboardContent b.
Proof.
  unfold modifyClipboardContent. now rewrite !replace_all_app.
Qed.

Lemma modify_length (s : jsstring) :
  List.length (modifyClipboardContent s)
  = (List.length s + count_occ N.eq_dec s TAB)%nat.
Proof.
  induction s as [|c s IH]; [reflexivity|].
  rewrite modify_cons, length_app, IH. unfold normalize_char_spec.
  cbn [count_occ List.length].
  destruct (N.eq_dec c TAB) as [->|Hne].
  - cbn. lia.
  - apply N.eqb_neq in Hne. rewrite Hne.
    destruct (c =? BULLET); cbn; lia.
Qed.

(** X1. Normalisation works piece by piece: the normalised form of a
    concatenation is the concatenation of the normalised forms; the
    result is longer than the input by exactly the number of tabs; and
    the strings normalisation leaves unchanged are exactly those with
    neither a tab nor a bullet. *)
Theorem X1_normalize_concat_length_fixpoints (a b s : jsstring) :
  modifyClipboardContent (a ++ b)
  = modifyClipboardContent a ++ modifyClipboardContent b /\
  List.length (modifyClipboardContent s)
  = (List.length s + count_occ N.eq_dec s TAB)%nat /\
  (modifyClipboardContent s = s <-> ~ In TAB s /\ ~ In BULLET s).
Proof.
  split; [apply modify_app|]. split; [apply modify_length|]. split.
  - intros Heq. destruct (modify_no_tab_no_bullet s) as [Ht Hb].
    rewrite Heq in Ht, Hb. rewrite Forall_forall in Ht, Hb.
    split; intros Hin;
      [apply Ht in Hin | apply Hb in Hin]; now rewrite N.eqb_refl in Hin.
  - intros [Ht Hb]. unfold modifyClipboardContent.
    assert (Ht' : Forall (fun c => (TAB =? c) = false) s).
    { rewrite Forall_forall. intros c Hc.
      destruct (TAB =? c) eqn:E; [|reflexivity].
      apply N.eqb_eq in E. now subst c. }
    assert (Hb' : Forall (fun c => (BULLET =? c) = false) s).
    { rewrite Forall_forall. intros c Hc.
      destruct (BULLET =? c) eqn:E; [|reflexivity].
      apply N.eqb_eq in E. now subst c. }
    now rewrite (replace_all_none _ _ s Ht'), (replace_all_none _ _ s Hb').
Qed.

(* ------------------------------------------------------------------ *)
(** ** The generated name *)

Lemma dropWhile_app_all p a s :
  Forall (fun c => p c = true) a -> dropWhile p (a ++ s) = dropWhile p s.
Proof.
  induction 1 as [|c a Hc _ IH]; [reflexivity|].
  cbn [app dropWhile]. now rewrite Hc.
Qed.

Lemma dropWhile_app_keep p s b c t :
  dropWhile p s = c :: t -> dropWhile p (s ++ b) = (c :: t) ++ b.
Proof.
  induction s as [|x s IH]; cbn [dropWhile app]; [discriminate|].
  destruct (p x); [exact IH | now intros [= <- <-]].
Qed.

Lemma dropWhile_all p s :
  Forall (fun c => p c = true) s -> dropWhile p s = [].
Proof.
  intros H. rewrite <- (app_nil_r s). now rewrite dropWhile_app_all.
Qed.

Lemma trim_surrounded a s b :
  Forall (fun c => is_space c = true) a ->
  Forall (fun c => is_space c = true) b ->
  trim (a ++ s ++ b) = trim s.
Proof.
  intros Ha Hb. unfold trim. rewrite (dropWhile_app_all _ a _ Ha).
  destruct (dropWhile is_space s) as [|c t] eqn:E.
  - assert (Hs : Forall (fun c => is_space c = true) s).
    { destruct (dropWhile_split is_space s) as [a' [Hs HP]].
      rewrite E, app_nil_r in Hs. now subst a'. }
    rewrite (dropWhile_all is_space (s ++ b)); [reflexivity|].
    apply Forall_app; now split.
  - rewrite (dropWhile_app_keep _ s b c t E), rev_app_distr.
    rewrite dropWhile_app_all; [reflexivity | now apply Forall_rev].
Qed.

Lemma sanitize_name_idempotent s :
  sanitize_name (sanitize_name s) = sanitize_name s.
Proof.
  destruct (sanitize_name_clean s) as [Hw Hq].
  now apply sanitize_name_id.
Qed.

(** X2. White space around the answer of the service does not change
    the generated name, and sanitizing a sanitized name changes
    nothing. *)
Theorem X2_surrounding_space_ignored (a s b : jsstring) :
  Forall (fun c => is_space c = true) a ->
  Forall (fun c => is_space c = true) b ->
  sanitize_name (a ++ s ++ b) = sanitize_name s /\
  sanitize_name (sanitize_name (a ++ s ++ b)) = sanitize_name s.
Proof.
  intros Ha Hb.
  assert (H : sanitize_name (a ++ s ++ b) = sanitize_name s).
  { unfold sanitize_name. now rewrite trim_surrounded. }
  split; [exact H|]. now rewrite H, sanitize_name_idempotent.
Qed.

Lemma X2_witness :
  sanitize_name ([LF; SPACE] ++ js "Shopping list" ++ [TAB; 160])
  = sanitize_name (js "Shopping list").
Proof.
  refine (proj1 (X2_surrounding_space_ignored
                   [LF; SPACE] (js "Shopping list") [TAB; 160] _ _));
    repeat constructor.
Defined.



(** X4. The fallback covers every answer that is not a non-empty
    string: when the command fails, when its output does not parse, and
    when the parsed value has no [response] property or one that is
    null, false, zero, empty, a number, a boolean, an array or an
    object, [generateFileName] returns ["Note"], logs the error and
    leaves the clipboard alone. *)
Theorem X4_fallback_unless_nonempty_string
  (W : World) (content : jsstring) (st : State) :
  ((exists e, execSync W (ollama_command W content) = Err e) \/
   (exists response e,
      execSync W (ollama_command W content) = Ok response /\
      JSON_parse W response = Err e) \/
   (exists response parsed,
      execSync W (ollama_command W content) = Ok response /\
      JSON_parse W response = Ok parsed /\
      forall s, get_prop parsed (js "response") = Ok (Some (JStr s)) ->
                s = [])) ->
  fst (generateFileName W content st) = Ret (js "Note") /\
  (exists e st',
     snd (generateFileName W content st)
     = logged W (js "generateFileName error: " ++ error_toString e) st') /\
  clipboard (snd (generateFileName W content st)) = clipboard st.
Proof.
  intros H.
  assert (Herr : exists e, service_name W content = Err e).
  { unfold service_name.
    destruct H as [[e He]|[(response & e & Hx & Hp)|(response & parsed & Hx & Hp & Hf)]].
    - rewrite He. now exists e.
    - rewrite Hx, Hp. now exists e.
    - rewrite Hx, Hp.
      destruct (get_prop parsed (js "response")) as [field|e] eqn:Hg;
        [|now exists e].
      destruct field as [[|b|x|s|items|props]|]; cbn [truthy call_trim];
        try (eexists; reflexivity).
      + destruct b; eexists; reflexivity.
      + destruct (negb (Qeq_bool x 0)); eexists; reflexivity.
      + rewrite (Hf s eq_refl). eexists; reflexivity. }
  destruct Herr as [e He].
  split; [|split].
  - now apply (generateFileName_fallback W content st e).
  - rewrite generateFileName_run, He. eexists e, _. reflexivity.
  - apply generateFileName_keeps_clipboard.
Qed.

Lemma X4_witness :
  fst (generateFileName (parsed_answer_world (JObj [(js "response", JNum 42)]))
         (js "text") (initial_state (js "text") None))
  = Ret (js "Note").
Proof.
  refine (proj1 (X4_fallback_unless_nonempty_string
                   (parsed_answer_world (JObj [(js "response", JNum 42)]))
                   (js "text") (initial_state (js "text") None) _)).
  right; right. exists (js "answer"), (JObj [(js "response", JNum 42)]).
  split; [reflexivity|]. split; [reflexivity|].
  intros s H. discriminate H.
Defined.

(* ------------------------------------------------------------------ *)
(** ** Dates and timestamps *)

Lemma below_forallb (P : N -> bool) (k : N) :
  forallb P (below (N.to_nat k)) = true ->
  forall n, n < k -> P n = true.
Proof.
  intros H n Hn. rewrite forallb_forall in H. apply H.
  unfold below. rewrite <- (N2Nat.id n). apply in_map, in_seq. lia.
Qed.

Lemma field_ok_decimal width value s :
  field_ok width value s = true -> decimal_field width value s.
Proof.
  unfold field_ok, decimal_field.
  rewrite !andb_true_iff, Nat.eqb_eq, N.eqb_eq. tauto.
Qed.

Lemma two_digit_field n :
  n <= 99 -> decimal_field 2 n (padStart0 2 (of_N n)).
Proof.
  intros Hn. apply field_ok_decimal.
  apply (below_forallb (fun n => field_ok 2 n (padStart0 2 (of_N n))) 100);
    [vm_compute; reflexivity | lia].
Qed.

Lemma three_digit_field n :
  n <= 999 -> decimal_field 3 n (padStart0 3 (of_N n)).
Proof.
  intros Hn. apply field_ok_decimal.
  apply (below_forallb (fun n => field_ok 3 n (padStart0 3 (of_N n))) 1000);
    [vm_compute; reflexivity | lia].
Qed.

Lemma four_digit_field n :
  1000 <= n -> n <= 9999 -> decimal_field 4 n (of_N n).
Proof.
  intros Hlo Hhi. apply field_ok_decimal.
  pose proof (below_forallb
                (fun n => (n <? 1000) || field_ok 4 n (of_N n)) 10000) as H.
  specialize (H ltac:(vm_compute; reflexivity) n ltac:(lia)).
  apply orb_true_iff in H. destruct H as [H|H]; [|exact H].
  apply N.ltb_lt in H. lia.
Qed.

(** X5. For a clock reading with a four-digit year, [getDate] returns
    fixed-width decimal fields that read back as the reading: four
    digits for the year, two for the month counted from 1 (the getter
    counts from 0), two for the day, the hours, the minutes and the
    seconds, three for the milliseconds; shorter numbers are padded
    with zeros.  The timestamp of a log line then has 25 characters. *)
Theorem X5_date_fields_fixed_width (W : World) (st : State) :
  four_digit_year (clock W (clock_reads st)) ->
  getter_ranges (clock W (clock_reads st)) ->
  exists parts,
    getDate W st = (Ret parts, tick st) /\
    decimal_field 4 (getFullYear (clock W (clock_reads st))) (yyyy parts) /\
    decimal_field 2 (getMonth (clock W (clock_reads st)) + 1) (mm parts) /\
    decimal_field 2 (getDate_ (clock W (clock_reads st))) (dd parts) /\
    decimal_field 2 (getHours (clock W (clock_reads st))) (hh parts) /\
    decimal_field 2 (getMinutes (clock W (clock_reads st))) (min parts) /\
    decimal_field 2 (getSeconds (clock W (clock_reads st))) (ss parts) /\
    decimal_field 3 (getMilliseconds (clock W (clock_reads st))) (mmm parts) /\
    fst (getTimestamp W st) = Ret (format_timestamp parts) /\
    List.length (format_timestamp parts) = 25%nat.
Proof.
  intros [Hlo Hhi] (Hmo & Hd & Hh & Hmi & Hs & Hms).
  set (now := clock W (clock_reads st)) in *.
  exists (date_parts now).
  pose proof (four_digit_field _ Hlo Hhi) as Fy.
  pose proof (two_digit_field (getMonth now + 1) ltac:(lia)) as Fmo.
  pose proof (two_digit_field (getDate_ now) ltac:(lia)) as Fd.
  pose proof (two_digit_field (getHours now) ltac:(lia)) as Fh.
  pose proof (two_digit_field (getMinutes now) ltac:(lia)) as Fmi.
  pose proof (two_digit_field (getSeconds now) ltac:(lia)) as Fs.
  pose proof (three_digit_field _ Hms) as Fms.
  repeat (split; [first [reflexivity | assumption]|]).
  unfold format_timestamp, date_parts;
    cbn [yyyy mm dd hh min ss mmm].
  rewrite !length_app.
  destruct Fy as [-> _], Fmo as [-> _], Fd as [-> _], Fh as [-> _],
           Fmi as [-> _], Fs as [-> _], Fms as [-> _].
  reflexivity.
Qed.

Lemma X5_witness :
  exists ts,
    fst (getTimestamp (approving_world []) (initial_state [] None)) = Ret ts /\
    List.length ts = 25%nat.
Proof.
  destruct (X5_date_fields_fixed_width
              (approving_world []) (initial_state [] None))
    as [parts H].
  - vm_compute. split; discriminate.
  - vm_compute. repeat split; discriminate.
  - exists (format_timestamp parts).
    split; [exact (proj1 (proj2 (proj2 (proj2 (proj2 (proj2 (proj2
                     (proj2 (proj2 H)))))))))
           | exact (proj2 (proj2 (proj2 (proj2 (proj2 (proj2 (proj2
                     (proj2 (proj2 H)))))))))].
Defined.

(* ------------------------------------------------------------------ *)
(** ** Flags and credentials *)

(** X6. With [--help] or [-h] among the arguments the script prints
    the usage text and exits with code 0; nothing else happens,
    whatever the other arguments, the credentials and the token file
    are: no timestamp is taken, no token is read, no request is made. *)
Theorem X6_help_prints_usage_and_exits (W : World) (st : State) :
  help_requested W = true ->
  script W st = (Exit 0%Z, add_event (Stdout helpMessage) st) /\
  exit_code (fst (script W st)) = Some 0%Z.
Proof.
  intros H. unfold help_requested in H. unfold script, when. rewrite H.
  split; reflexivity.
Qed.

Lemma X6_witness :
  script (configured_world [js "bun"; js "index.js"; js "--auth-only"; js "-h"]
            None [] None None)
    (initial_state (js "text") None)
  = (Exit 0%Z,
     add_event (Stdout helpMessage) (initial_state (js "text") None)).
Proof.
  exact (proj1 (X6_help_prints_usage_and_exits
                  (configured_world
                     [js "bun"; js "index.js"; js "--auth-only"; js "-h"]
                     None [] None None)
                  (initial_state (js "text") None) eq_refl)).
Defined.

(** X7. With [--version] or [-v] and no help flag the script prints the
    version of the package, without a timestamp, and exits with code 0,
    also when no credential is set. *)
Theorem X7_version_printed_without_credentials (W : World) (st : State) :
  help_requested W = false ->
  version_requested W = true ->
  script W st = (Exit 0%Z, add_event (Stdout (package_version W)) st) /\
  exit_code (fst (script W st)) = Some 0%Z.
Proof.
  intros Hh Hv. unfold help_requested in Hh. unfold version_requested in Hv.
  unfold script, when. rewrite Hh, Hv. split; reflexivity.
Qed.

Lemma X7_witness :
  script (configured_world [js "bun"; js "index.js"; js "-v"]
            None [] None None)
    (initial_state (js "text") None)
  = (Exit 0%Z,
     add_event (Stdout (js "1.0.0")) (initial_state (js "text") None)).
Proof.
  exact (proj1 (X7_version_printed_without_credentials
                  (configured_world [js "bun"; js "index.js"; js "-v"]
                     None [] None None)
                  (initial_state (js "text") None) eq_refl eq_refl)).
Defined.

Lemma or_else_cases (a : option jsstring) (b : jsstring) :
  or_else a b = match a with Some (c :: t) => c :: t | _ => b end.
Proof. destruct a as [[|c t]|]; reflexivity. Qed.

(** X8. Without help and version flags the script first checks the
    three credentials, each taken from the environment variable when
    that is set and not empty and from the embedded value otherwise.
    If one is empty, the script writes the message of the first such
    credential to the error stream and exits with code 1 before any
    authentication; if all are set, it behaves as [main]. *)
Theorem X8_credentials_checked_before_main (W : World) (st : State) :
  help_requested W = false ->
  version_requested W = false ->
  script W st
  = match first_missing_credential W with
    | Some message => (Exit 1%Z, error_logged W message st)
    | None => main W st
    end /\
  (first_missing_credential W = None <->
   CLIENT_ID W <> [] /\ CLIENT_SECRET W <> [] /\ FOLDER_ID W <> []) /\
  CLIENT_ID W
  = match env_CLIENT_ID W with
    | Some (c :: t) => c :: t
    | _ => embedded_CLIENT_ID W
    end /\
  CLIENT_SECRET W
  = match env_CLIENT_SECRET W with
    | Some (c :: t) => c :: t
    | _ => embedded_CLIENT_SECRET W
    end /\
  FOLDER_ID W
  = match env_FOLDER_ID W with
    | Some (c :: t) => c :: t
    | _ => embedded_FOLDER_ID W
    end.
Proof.
  intros Hh Hv. unfold help_requested in Hh. unfold version_requested in Hv.
  split; [|split; [|repeat split; apply or_else_cases]].
  - unfold script, when. rewrite Hh, Hv.
    unfold first_missing_credential.
    unfold bind at 1. unfold ret at 1.
    unfold bind at 1. unfold ret at 1.
    unfold bind at 1. unfold try_catch at 1.
    destruct (CLIENT_ID W) as [|c1 t1]; [reflexivity|].
    destruct (CLIENT_SECRET W) as [|c2 t2]; [reflexivity|].
    destruct (FOLDER_ID W) as [|c3 t3]; reflexivity.
  - unfold first_missing_credential.
    destruct (CLIENT_ID W) as [|c1 t1]; cbn;
      [split; [discriminate | intros [H _]; now destruct H]|].
    destruct (CLIENT_SECRET W) as [|c2 t2]; cbn;
      [split; [discriminate | intros (_ & H & _); now destruct H]|].
    destruct (FOLDER_ID W) as [|c3 t3]; cbn;
      [split; [discriminate | intros (_ & _ & H); now destruct H]|].
    split; [intros _; repeat split; discriminate | reflexivity].
Qed.

Lemma X8_witness :
  script (configured_world [js "bun"; js "index.js"]
            (Some []) (js "embedded-id") (Some (js "secret")) None)
    (stored_start (js "text"))
  = (Exit 1%Z,
     error_logged
       (configured_world [js "bun"; js "index.js"]
          (Some []) (js "embedded-id") (Some (js "secret")) None)
       (js "FOLDER_ID is not set.") (stored_start (js "text"))).
Proof.
  exact (proj1 (X8_credentials_checked_before_main
                  (configured_world [js "bun"; js "index.js"]
                     (Some []) (js "embedded-id") (Some (js "secret")) None)
                  (stored_start (js "text")) eq_refl eq_refl)).
Defined.

(* ------------------------------------------------------------------ *)
(** ** Authorization through the browser *)

Lemma await_authorization_code_run W st :
  await_authorization_code W st
  = match incoming_requests W with
    | [] => (Hang, listening_state W st)
    | r :: _ =>
        match URL_searchParams W r REDIRECT_URI with
        | Err e => (Uncaught e, listening_state W st)
        | Ok qs =>
            if truthy_str (searchParams_get qs (js "code"))
            then (Ret (str_of (searchParams_get qs (js "code"))),
                  served SUCCESS_PAGE
                    (Resolved (str_of (searchParams_get qs (js "code"))))
                    (listening_state W st))
            else (Throw MISSING_CODE,
                  served FAILURE_PAGE (Rejected MISSING_CODE)
                    (listening_state W st))
        end
    end.
Proof.
  unfold await_authorization_code.
  unfold bind at 1. unfold bind at 1. rewrite bind_log.
  fold (listening_state W st).
  destruct (incoming_requests W) as [|r rest]; [reflexivity|].
  unfold bind. cbn [deliver].
  change (server (listening_state W st)) with Listening. cbv iota.
  destruct (URL_searchParams W r REDIRECT_URI) as [qs|e] eqn:Hurl.
  - rewrite (request_handler_run W r (listening_state W st) qs Hurl eq_refl).
    destruct (truthy_str (searchParams_get qs (js "code")));
      rewrite deliver_not_listening by discriminate; reflexivity.
  - unfold request_handler. rewrite (bind_lift_err _ _ _ _ Hurl).
    reflexivity.
Qed.

Lemma fresh_authorization_run W st :
  fresh_authorization W st
  = match open_browser W (generateAuthUrl W (js "offline") SCOPES) with
    | Err e => (Throw e, browser_state W st)
    | Ok _ =>
        match await_authorization_code W (browser_state W st) with
        | (Ret code, st1) =>
            match oauth_getToken W code with
            | Err e => (Throw e, add_event (TokenExchange code) st1)
            | Ok tokens =>
                let st2 :=
                  add_event (TokenFileWrite (JSON_stringify W tokens))
                    (set_credentials (Some tokens)
                       (add_event (TokenExchange code) st1)) in
                match fs_write_failure W with
                | Some e => (Throw e, st2)
                | None =>
                    (Ret tt,
                     logged W (js "Token stored to " ++ TOKEN_PATH W)
                       (set_token_file (Some (JSON_stringify W tokens)) st2))
                end
            end
        | (Throw e, st1) => (Throw e, st1)
        | (Exit c, st1) => (Exit c, st1)
        | (Uncaught e, st1) => (Uncaught e, st1)
        | (Hang, st1) => (Hang, st1)
        end
    end.
Proof.
  unfold fresh_authorization. rewrite bind_log, bind_emit.
  fold (browser_state W st).
  destruct (open_browser W (generateAuthUrl W (js "offline") SCOPES))
    as [u|e] eqn:Hopen.
  2:{ rewrite (bind_lift_err _ _ _ _ eq_refl). reflexivity. }
  rewrite (bind_lift_ok _ _ _ _ eq_refl).
  unfold bind at 1.
  destruct (await_authorization_code W (browser_state W st))
    as [[code|e|c|e|] st1]; try reflexivity.
  rewrite bind_emit.
  destruct (oauth_getToken W code) as [tokens|e] eqn:Htok.
  2:{ rewrite (bind_lift_err _ _ _ _ eq_refl). reflexivity. }
  rewrite (bind_lift_ok _ _ _ _ eq_refl).
  unfold bind at 1. unfold setCredentials at 1.
  unfold writeFileSync_token. rewrite bind_assoc, bind_emit.
  unfold bind. cbv zeta.
  destruct (fs_write_failure W); reflexivity.
Qed.

Lemma obtain_credentials_cases W st :
  (exists text record,
     token_file st = Some text /\ JSON_parse W text = Ok record /\
     obtain_credentials W st
     = (Ret tt,
        logged W (js "Token loaded successfully.")
          (set_credentials (Some record) (logged W (ATTEMPT W) st)))) \/
  (no_stored_token W st /\
   obtain_credentials W st = fresh_authorization W (logged W (ATTEMPT W) st)).
Proof.
  destruct (token_file st) as [text|] eqn:Hfile.
  - destruct (JSON_parse W text) as [record|e] eqn:Hparse.
    + left. exists text, record.
      split; [reflexivity|]. split; [exact Hparse|].
      now apply obtain_credentials_stored with (text := text).
    + right. split; [right; now exists text, e|].
      now apply obtain_credentials_corrupt with (text := text) (e := e).
  - right. split; [now left|]. now apply obtain_credentials_missing.
Qed.

Lemma no_stored_token_fresh W st :
  no_stored_token W st ->
  obtain_credentials W st = fresh_authorization W (logged W (ATTEMPT W) st).
Proof.
  intros [Hnone|(text & e & Hfile & Hparse)].
  - now apply obtain_credentials_missing.
  - now apply obtain_credentials_corrupt with (text := text) (e := e).
Qed.

(** X9. When authorization through the browser completes, the tokens
    obtained for the code of the callback are the credentials
    installed, the token file holds their serialization and the
    listener is closed; and if that serialization parses back to the
    tokens, the next run installs the same credentials from the file
    and adds nothing but two log lines: it opens no browser and starts
    no listener. *)
Theorem X9_fresh_authorization_persists_token
  (W : World) (st st1 : State) :
  no_stored_token W st ->
  obtain_credentials W st = (Ret tt, st1) ->
  exists code tokens,
    oauth_getToken W code = Ok tokens /\
    In (TokenExchange code) (trace st1) /\
    credentials st1 = Some tokens /\
    token_file st1 = Some (JSON_stringify W tokens) /\
    server st1 = Closed /\
    (JSON_parse W (JSON_stringify W tokens) = Ok tokens ->
     obtain_credentials W st1
     = (Ret tt,
        logged W (js "Token loaded successfully.")
          (set_credentials (Some tokens) (logged W (ATTEMPT W) st1)))).
Proof.
  intros Hno Hrun.
  rewrite (no_stored_token_fresh W st Hno), fresh_authorization_run in Hrun.
  destruct (open_browser W _) as [u|e]; [|discriminate].
  rewrite await_authorization_code_run in Hrun.
  destruct (incoming_requests W) as [|r rest]; [discriminate|].
  destruct (URL_searchParams W r REDIRECT_URI) as [qs|e]; [|discriminate].
  destruct (truthy_str (searchParams_get qs (js "code"))); [|discriminate].
  set (code := str_of (searchParams_get qs (js "code"))) in *.
  destruct (oauth_getToken W code) as [tokens|e] eqn:Htok; [|discriminate].
  cbv zeta in Hrun.
  destruct (fs_write_failure W); [discriminate|].
  injection Hrun as <-.
  exists code, tokens. split; [exact Htok|]. split.
  { cbn [trace logged add_event tick set_token_file set_credentials].
    rewrite !in_app_iff. cbn [In]. auto 6. }
  split; [reflexivity|]. split; [reflexivity|]. split; [reflexivity|].
  intros Hparse.
  now apply obtain_credentials_stored with (text := JSON_stringify W tokens).
Qed.

Lemma X9_witness :
  exists st1,
    obtain_credentials
      (round_trip_world [js "/?code=4/0AbCdEf&scope=drive.file"] token_granted)
      (initial_state (js "text") None) = (Ret tt, st1) /\
    token_file st1 = Some stored_token_text /\
    credentials st1 = Some stored_token_record.
Proof.
  set (W := round_trip_world [js "/?code=4/0AbCdEf&scope=drive.file"]
              token_granted).
  set (st := initial_state (js "text") None).
  assert (Hrun : obtain_credentials W st
                 = (Ret tt, snd (obtain_credentials W st)))
    by (vm_compute; reflexivity).
  exists (snd (obtain_credentials W st)). split; [exact Hrun|].
  destruct (X9_fresh_authorization_persists_token W st _
              (or_introl eq_refl) Hrun)
    as (code & tokens & Htok & _ & Hcred & Hfile & _).
  change (Ok stored_token_record = Ok tokens) in Htok.
  injection Htok as <-.
  split; [exact Hfile | exact Hcred].
Defined.

Lemma main_obtain_throw W st e st1 :
  obtain_credentials W st = (Throw e, st1) ->
  main W st = (Ret tt, error_logged W (js "Error: " ++ err_message e) st1).
Proof.
  intros H. unfold main, try_catch, authenticate, bind. now rewrite H.
Qed.

Lemma main_obtain_hang W st st1 :
  obtain_credentials W st = (Hang, st1) -> main W st = (Hang, st1).
Proof.
  intros H. unfold main, try_catch, authenticate, bind. now rewrite H.
Qed.

Lemma main_obtain_uncaught W st e st1 :
  obtain_credentials W st = (Uncaught e, st1) ->
  main W st = (Uncaught e, st1).
Proof.
  intros H. unfold main, try_catch, authenticate, bind. now rewrite H.
Qed.

(** X10. Without a usable token file, when the browser opens and no
    request ever reaches the listener, [main] never completes: it
    waits on the authorization with the listener open on port 3000, no
    token exchanged, nothing installed and nothing written. *)
Theorem X10_no_callback_waits_forever (W : World) (st : State) :
  no_stored_token W st ->
  open_browser W (generateAuthUrl W (js "offline") SCOPES) = Ok tt ->
  incoming_requests W = [] ->
  main W st
  = (Hang, listening_state W (browser_state W (logged W (ATTEMPT W) st))) /\
  exit_code (fst (main W st)) = None /\
  server (snd (main W st)) = Listening /\
  token_file (snd (main W st)) = token_file st /\
  credentials (snd (main W st)) = credentials st /\
  clipboard (snd (main W st)) = clipboard st.
Proof.
  intros Hno Hopen Hreq.
  assert (Hmain : main W st
                  = (Hang, listening_state W
                             (browser_state W (logged W (ATTEMPT W) st)))).
  { apply main_obtain_hang.
    rewrite (no_stored_token_fresh W st Hno), fresh_authorization_run, Hopen.
    now rewrite await_authorization_code_run, Hreq. }
  rewrite Hmain. repeat split.
Qed.

Lemma X10_witness :
  exit_code (fst (main (round_trip_world [] token_granted)
                    (initial_state (js "text") None))) = None.
Proof.
  exact (proj1 (proj2 (X10_no_callback_waits_forever
                         (round_trip_world [] token_granted)
                         (initial_state (js "text") None)
                         (or_introl eq_refl) eq_refl eq_refl))).
Defined.

(** X11. A failure of the authorization (the browser cannot be opened,
    the callback carries no code, the token exchange fails, the token
    file cannot be written) is logged by [main] as an error, after
    which the process ends with code 0: the upload pipeline is not
    entered and the token file is left as it was. *)
Theorem X11_authorization_failure_logged
  (W : World) (st st1 : State) (e : jserror) :
  obtain_credentials W st = (Throw e, st1) ->
  main W st = (Ret tt, error_logged W (js "Error: " ++ err_message e) st1) /\
  exit_code (fst (main W st)) = Some 0%Z /\
  token_file st1 = token_file st /\
  (exists l, trace st1 = trace st ++ l /\
             Forall (fun ev => is_pipeline_event ev = false) l) /\
  (open_browser W (generateAuthUrl W (js "offline") SCOPES) = Err e \/
   e = MISSING_CODE \/
   (exists code, oauth_getToken W code = Err e) \/
   fs_write_failure W = Some e).
Proof.
  intros Hrun.
  pose proof (main_obtain_throw W st e st1 Hrun) as Hmain.
  split; [exact Hmain|]. split; [now rewrite Hmain|].
  assert (Hev : exists l, trace st1 = trace st ++ l /\
                  Forall (fun ev => is_pipeline_event ev = false) l).
  { destruct (authenticate_no_pipeline_event W st) as [l [Hl HP]].
    unfold authenticate, bind in Hl. rewrite Hrun in Hl. now exists l. }
  destruct (obtain_credentials_cases W st)
    as [(text & record & _ & _ & Hok)|[Hno Hfresh]].
  { rewrite Hok in Hrun. discriminate. }
  rewrite Hfresh, fresh_authorization_run in Hrun.
  destruct (open_browser W _) as [u|e0] eqn:Hopen.
  2:{ injection Hrun as <- <-. repeat split; auto. }
  rewrite await_authorization_code_run in Hrun.
  destruct (incoming_requests W) as [|r rest]; [discriminate|].
  destruct (URL_searchParams W r REDIRECT_URI) as [qs|e0]; [|discriminate].
  destruct (truthy_str (searchParams_get qs (js "code"))).
  2:{ injection Hrun as <- <-. repeat split; auto. }
  destruct (oauth_getToken W _) as [tokens|e0] eqn:Htok.
  2:{ injection Hrun as <- <-. repeat split; eauto. }
  cbv zeta in Hrun.
  destruct (fs_write_failure W) as [e0|] eqn:Hw; [|discriminate].
  injection Hrun as <- <-. repeat split; auto.
Qed.

Lemma X11_witness :
  exit_code
    (fst (main (round_trip_world [js "/?code=4/0AbCdEf&scope=drive.file"]
                  token_refused)
            (initial_state (js "text") None)))
  = Some 0%Z.
Proof.
  refine (proj1 (proj2
    (X11_authorization_failure_logged
       (round_trip_world [js "/?code=4/0AbCdEf&scope=drive.file"] token_refused)
       (initial_state (js "text") None)
       (snd (obtain_credentials
               (round_trip_world [js "/?code=4/0AbCdEf&scope=drive.file"]
                  token_refused)
               (initial_state (js "text") None)))
       (Error (js "invalid_grant")) _))).
  vm_compute. reflexivity.
Defined.

(** X12. The URL of a request is parsed outside the [try] block of the
    callback: when it does not parse, the exception escapes the
    callback; no page is sent, the listener is not closed, the
    authorization stays pending, and the handler of [main] does not
    see the error. *)
Theorem X12_unparsable_url_escapes_callback
  (W : World) (st : State) (r : jsstring) (rest : list jsstring)
  (e : jserror) :
  no_stored_token W st ->
  open_browser W (generateAuthUrl W (js "offline") SCOPES) = Ok tt ->
  incoming_requests W = r :: rest ->
  URL_searchParams W r REDIRECT_URI = Err e ->
  main W st
  = (Uncaught e,
     listening_state W (browser_state W (logged W (ATTEMPT W) st))) /\
  server (snd (main W st)) = Listening /\
  auth_promise (snd (main W st)) = Pending /\
  exists l, trace (snd (main W st)) = trace st ++ l /\
            Forall (fun ev => match ev with
                              | HttpResponse _ | ListenerClosed | Stderr _ =>
                                  False
                              | _ => True
                              end) l.
Proof.
  intros Hno Hopen Hreq Hurl.
  assert (Hmain : main W st
                  = (Uncaught e,
                     listening_state W
                       (browser_state W (logged W (ATTEMPT W) st)))).
  { apply main_obtain_uncaught.
    rewrite (no_stored_token_fresh W st Hno), fresh_authorization_run, Hopen.
    now rewrite await_authorization_code_run, Hreq, Hurl. }
  rewrite Hmain. split; [reflexivity|]. split; [reflexivity|].
  split; [reflexivity|].
  cbn. rewrite <- !app_assoc. eexists. split; [reflexivity|].
  repeat constructor.
Qed.

Lemma X12_witness :
  fst (main (round_trip_world [js "//"] token_granted)
         (initial_state (js "text") None))
  = Uncaught (TypeError (js "Invalid URL")).
Proof.
  exact (f_equal fst
           (proj1 (X12_unparsable_url_escapes_callback
                     (round_trip_world [js "//"] token_granted)
                     (initial_state (js "text") None)
                     (js "//") [] (TypeError (js "Invalid URL"))
                     (or_introl eq_refl) eq_refl eq_refl eq_refl))).
Defined.

(** X13. The upload pipeline is entered only with credentials
    installed: whenever [authenticate] returns, the API client holds
    credentials, the [--auth-only] flag is not set, and the clipboard
    is as it was. *)
Theorem X13_authenticate_returns_with_credentials
  (W : World) (st st1 : State) :
  authenticate W st = (Ret tt, st1) ->
  credentials st1 <> None /\
  ONLY_AUTH W = false /\
  clipboard st1 = clipboard st /\
  obtain_credentials W st = (Ret tt, st1).
Proof.
  intros Hauth.
  assert (Hflag : ONLY_AUTH W = false).
  { destruct (ONLY_AUTH W) eqn:E; [|reflexivity].
    pose proof (authenticate_auth_only_never_returns W st E tt) as Hn.
    rewrite Hauth in Hn. now destruct Hn. }
  assert (Hob : obtain_credentials W st = (Ret tt, st1)).
  { unfold authenticate, bind, when in Hauth. rewrite Hflag in Hauth.
    destruct (obtain_credentials W st) as [[[]|e|c|e|] st'];
      try discriminate.
    exact Hauth. }
  assert (Hboth : credentials st1 <> None /\ clipboard st1 = clipboard st).
  { destruct (obtain_credentials_cases W st)
      as [(text & record & _ & _ & Hok)|[Hno Hfresh]].
    - rewrite Hok in Hob. injection Hob as <-. split; [discriminate|reflexivity].
    - rewrite Hfresh, fresh_authorization_run in Hob.
      destruct (open_browser W _) as [u|e]; [|discriminate].
      rewrite await_authorization_code_run in Hob.
      destruct (incoming_requests W) as [|r rest]; [discriminate|].
      destruct (URL_searchParams W r REDIRECT_URI) as [qs|e]; [|discriminate].
      destruct (truthy_str (searchParams_get qs (js "code"))); [|discriminate].
      destruct (oauth_getToken W _) as [tokens|e]; [|discriminate].
      cbv zeta in Hob.
      destruct (fs_write_failure W); [discriminate|].
      injection Hob as <-. split; [discriminate|reflexivity]. }
  destruct Hboth as [Hcred Hclip]. auto.
Qed.

Lemma X13_witness :
  credentials
    (snd (authenticate (drive_world no_grant) (stored_start (js "text"))))
  <> None.
Proof.
  refine (proj1 (X13_authenticate_returns_with_credentials
                   (drive_world no_grant) (stored_start (js "text"))
                   (snd (authenticate (drive_world no_grant)
                           (stored_start (js "text")))) _)).
  vm_compute. reflexivity.
Defined.

(* ------------------------------------------------------------------ *)
(** ** The Drive calls of the upload pipeline *)

Lemma drive_steps_run W request st :
  try_catch (drive_steps W request)
    (fun error => errorLog W (upload_error_message error)) st
  = let s1 := add_event (DriveCreate request)
                (logged W (js "Uploading file to Google Drive...") st) in
    match drive_files_create W request with
    | Err e => (Ret tt, error_logged W (upload_error_message e) s1)
    | Ok data =>
        if truthy_str (data_id data) then
          let s2 := add_event (DrivePermission (str_of (data_id data)))
                      (logged W (js "File uploaded successfully.") s1) in
          match drive_permissions_create W (str_of (data_id data)) with
          | Err e => (Ret tt, error_logged W (upload_error_message e) s2)
          | Ok _ =>
              let s3 := logged W
                          (js "Permissions set to " ++ [DQUOTE] ++
                           js "Anyone with the link can view" ++ [DQUOTE] ++
                           js ".") s2 in
              if truthy_str (data_webViewLink data) then
                match clipboard_write_failure W with
                | Some e => (Ret tt, error_logged W (upload_error_message e) s3)
                | None =>
                    (Ret tt,
                     logged W (js "Link copied to clipboard: "
                               ++ str_of (data_webViewLink data))
                       (set_clipboard (str_of (data_webViewLink data))
                          (add_event
                             (ClipboardWrite (str_of (data_webViewLink data)))
                             s3)))
                end
              else
                (Ret tt,
                 error_logged W
                   (upload_error_message
                      (AssertionError
                         (js "Failed to retrieve webViewLink for the uploaded file.")))
                   s3)
          end
        else
          (Ret tt,
           error_logged W
             (upload_error_message
                (AssertionError (js "Failed to upload file to Google Drive.")))
             s1)
    end.
Proof.
  cbv zeta. unfold try_catch, drive_steps.
  rewrite bind_log, bind_emit.
  destruct (drive_files_create W request) as [data|e] eqn:Hc.
  2:{ rewrite (bind_lift_err _ _ _ _ eq_refl). reflexivity. }
  rewrite (bind_lift_ok _ _ _ _ eq_refl).
  unfold assert_ at 1. destruct (truthy_str (data_id data)); [|reflexivity].
  unfold bind at 1. unfold ret at 1.
  rewrite bind_log, bind_emit.
  destruct (drive_permissions_create W (str_of (data_id data))) as [u|e] eqn:Hp.
  2:{ rewrite (bind_lift_err _ _ _ _ eq_refl). reflexivity. }
  rewrite (bind_lift_ok _ _ _ _ eq_refl), bind_log.
  unfold assert_ at 1.
  destruct (truthy_str (data_webViewLink data)); [|reflexivity].
  unfold bind at 1. unfold ret at 1.
  unfold bind at 1. unfold clipboard_writeSync at 1.
  destruct (clipboard_write_failure W); reflexivity.
Qed.

Lemma generateFileName_frame W content st :
  exists name st1,
    generateFileName W content st = (Ret name, st1) /\
    durable st1 = durable st /\ clipboard st1 = clipboard st /\
    exists l, trace st1 = trace st ++ l /\
              Forall (fun e => is_log_or_shell e = true) l.
Proof.
  rewrite generateFileName_run.
  destruct (service_name W content) as [name|e]; eexists _, _;
    (split; [reflexivity|]); (split; [reflexivity|]);
    (split; [reflexivity|]); cbn; rewrite <- !app_assoc;
    eexists; (split; [reflexivity|]); repeat constructor.
Qed.

(** For content that passes the checks, [uploadFile] comes down to the
    Drive calls for the request built from the generated name. *)
Lemma uploadFile_to_drive_steps W st :
  clipboard_read_failure W = None ->
  clipboard st <> [] ->
  let content := modifyClipboardContent (clipboard st) in
  exists name st1 l,
    generateFileName W content (checked_state W st) = (Ret name, st1) /\
    durable st1 = durable st /\ clipboard st1 = clipboard st /\
    trace st1 = trace (checked_state W st) ++ l /\
    Forall (fun e => is_log_or_shell e = true) l /\
    uploadFile W st
    = try_catch
        (drive_steps W
           (build_request W name (date_parts (clock W (clock_reads st1)))
              content))
        (fun error => errorLog W (upload_error_message error))
        (tick st1).
Proof.
  intros Hread Hclip content.
  destruct (generateFileName_frame W content (checked_state W st))
    as (name & st1 & Hgen & Hd & Hc & l & Hl & HP).
  exists name, st1, l. repeat (split; [assumption|]).
  rewrite (uploadFile_nonempty W st Hread Hclip).
  fold content. fold (checked_state W st).
  unfold upload_content. unfold bind at 1. rewrite Hgen.
  reflexivity.
Qed.

(** X14. When the clipboard holds text and every call succeeds (the
    create call returns an id and a link, the permission call returns,
    the clipboard can be written), [uploadFile] completes with the
    link on the clipboard; the file was created with the normalised
    content as body, the Markdown type, the configured folder as only
    parent and the name [<generated name>-<date and time>.md], and the
    permission was requested for the returned id. *)
Theorem X14_successful_upload_copies_link
  (W : World) (st : State) (data : drive_data) :
  clipboard_read_failure W = None ->
  clipboard st <> [] ->
  (forall request,
     req_body request = modifyClipboardContent (clipboard st) ->
     drive_files_create W request = Ok data) ->
  truthy_str (data_id data) = true ->
  drive_permissions_create W (str_of (data_id data)) = Ok tt ->
  truthy_str (data_webViewLink data) = true ->
  clipboard_write_failure W = None ->
  fst (uploadFile W st) = Ret tt /\
  clipboard (snd (uploadFile W st)) = str_of (data_webViewLink data) /\
  durable (snd (uploadFile W st)) = durable st /\
  exists name parts,
    fst (generateFileName W (modifyClipboardContent (clipboard st))
           (checked_state W st)) = Ret name /\
    In (DriveCreate
          (mkRequest
             (name ++ js "-" ++
              (yyyy parts ++ js "-" ++ mm parts ++ js "-" ++ dd parts ++
               js "-" ++ hh parts ++ js "-" ++ min parts ++ js "-" ++
               ss parts ++ js "-" ++ mmm parts) ++ js ".md")
             [FOLDER_ID W] (js "text/markdown")
             (modifyClipboardContent (clipboard st))))
       (trace (snd (uploadFile W st))) /\
    In (DrivePermission (str_of (data_id data)))
       (trace (snd (uploadFile W st))) /\
    In (ClipboardWrite (str_of (data_webViewLink data)))
       (trace (snd (uploadFile W st))).
Proof.
  intros Hread Hclip Hc Hid Hp Hlink Hw.
  destruct (uploadFile_to_drive_steps W st Hread Hclip)
    as (name & st1 & l & Hgen & Hd & Hcl & Hl & HP & Hrun).
  rewrite Hrun, drive_steps_run. cbv zeta.
  rewrite (Hc (build_request W name (date_parts (clock W (clock_reads st1)))
                 (modifyClipboardContent (clipboard st))) eq_refl),
    Hid, Hp, Hlink, Hw.
  split; [reflexivity|]. split; [reflexivity|]. split; [exact Hd|].
  exists name, (date_parts (clock W (clock_reads st1))).
  rewrite Hgen. split; [reflexivity|].
  cbn [snd trace logged add_event tick set_clipboard].
  rewrite !in_app_iff. cbn [In]. unfold build_request. auto 10.
Qed.

Lemma X14_witness :
  clipboard
    (snd (uploadFile (drive_world (fun _ => Ok tt))
            (stored_start (js "Hello" ++ [TAB] ++ js "World"))))
  = js "https://drive.google.com/file/d/1AbC/view".
Proof.
  refine (proj1 (proj2
    (X14_successful_upload_copies_link
       (drive_world (fun _ => Ok tt))
       (stored_start (js "Hello" ++ [TAB] ++ js "World"))
       created_file eq_refl _ (fun _ _ => eq_refl)
       eq_refl eq_refl eq_refl eq_refl))).
  discriminate.
Defined.

Lemma truthy_str_some (v : option jsstring) :
  truthy_str v = true -> v = Some (str_of v) /\ str_of v <> [].
Proof.
  destruct v as [[|c t]|]; cbn; try discriminate.
  intros _. split; [reflexivity | discriminate].
Qed.

Lemma checked_state_trace W st :
  exists a b,
    trace (checked_state W st)
    = trace st ++ [DriveClientCreated; ClipboardRead; Stdout a; Stdout b].
Proof.
  eexists _, _. cbn. rewrite <- !app_assoc. reflexivity.
Qed.

(** X15. The clipboard is overwritten only by a complete upload: if
    the clipboard after [uploadFile] differs from the clipboard before,
    then the file was created for the normalised content, the answer
    held an id and a link, the permission call returned, and the
    clipboard now holds that link. *)
Theorem X15_clipboard_changes_only_on_success (W : World) (st : State) :
  clipboard (snd (uploadFile W st)) <> clipboard st ->
  exists request data,
    req_body request = modifyClipboardContent (clipboard st) /\
    drive_files_create W request = Ok data /\
    truthy_str (data_id data) = true /\
    drive_permissions_create W (str_of (data_id data)) = Ok tt /\
    truthy_str (data_webViewLink data) = true /\
    clipboard_read_failure W = None /\
    clipboard_write_failure W = None /\
    clipboard (snd (uploadFile W st)) = str_of (data_webViewLink data).
Proof.
  intros Hchanged.
  destruct (clipboard_read_failure W) as [e|] eqn:Hread.
  { rewrite (uploadFile_unreadable W st e Hread) in Hchanged.
    now destruct Hchanged. }
  destruct (clipboard st) as [|c0 t0] eqn:Hclip.
  { rewrite (uploadFile_empty W st Hread Hclip) in Hchanged.
    cbn in Hchanged. rewrite Hclip in Hchanged. now destruct Hchanged. }
  assert (Hne : clipboard st <> []) by (rewrite Hclip; discriminate).
  destruct (uploadFile_to_drive_steps W st Hread Hne)
    as (name & st1 & l & Hgen & Hd & Hcl & Hl & HP & Hrun).
  rewrite Hclip in Hrun, Hcl.
  rewrite Hrun, drive_steps_run in *. cbv zeta in *.
  set (request := build_request W name _ _) in *.
  destruct (drive_files_create W request) as [data|e] eqn:Hc;
    [|now destruct Hchanged].
  destruct (truthy_str (data_id data)) eqn:Hid; [|now destruct Hchanged].
  destruct (drive_permissions_create W _) as [[]|e] eqn:Hp;
    [|now destruct Hchanged].
  destruct (truthy_str (data_webViewLink data)) eqn:Hlink;
    [|now destruct Hchanged].
  destruct (clipboard_write_failure W) as [e|]; [now destruct Hchanged|].
  exists request, data. repeat split; assumption || reflexivity.
Qed.

Lemma X15_witness :
  exists request data,
    drive_files_create (drive_world (fun _ => Ok tt)) request = Ok data /\
    clipboard
      (snd (uploadFile (drive_world (fun _ => Ok tt))
              (stored_start (js "Hello"))))
    = str_of (data_webViewLink data).
Proof.
  destruct (X15_clipboard_changes_only_on_success
              (drive_world (fun _ => Ok tt)) (stored_start (js "Hello")))
    as (request & data & _ & Hc & _ & _ & _ & _ & _ & Hclip).
  - vm_compute. discriminate.
  - exists request, data. split; [exact Hc | exact Hclip].
Defined.

(** X16. A permission is requested only for a file that Drive has just
    created: every permission call that [uploadFile] adds to the trace
    is for the non-empty id returned by the create call for the
    normalised content, and it comes after that create call. *)
Theorem X16_permission_only_for_created_file
  (W : World) (st : State) (fileId : jsstring) :
  In (DrivePermission fileId) (trace (snd (uploadFile W st))) ->
  ~ In (DrivePermission fileId) (trace st) ->
  exists request data before after,
    req_body request = modifyClipboardContent (clipboard st) /\
    drive_files_create W request = Ok data /\
    data_id data = Some fileId /\ fileId <> [] /\
    trace (snd (uploadFile W st))
    = before ++ DriveCreate request :: after /\
    In (DrivePermission fileId) after.
Proof.
  intros Hin Hnot.
  destruct (clipboard_read_failure W) as [e|] eqn:Hread.
  { rewrite (uploadFile_unreadable W st e Hread) in Hin. cbn in Hin.
    rewrite !in_app_iff in Hin. cbn [In] in Hin.
    destruct Hin as [[H|[H|[]]]|[H|[]]]; [contradiction|discriminate|discriminate]. }
  destruct (clipboard st) as [|c0 t0] eqn:Hclip.
  { rewrite (uploadFile_empty W st Hread Hclip) in Hin. cbn in Hin.
    rewrite !in_app_iff in Hin. cbn [In] in Hin.
    destruct Hin as [[[H|[H|[]]]|[H|[]]]|[H|[]]];
      [contradiction|discriminate|discriminate|discriminate]. }
  assert (Hne : clipboard st <> []) by (rewrite Hclip; discriminate).
  destruct (uploadFile_to_drive_steps W st Hread Hne)
    as (name & st1 & l & Hgen & Hd & Hcl & Hl & HP & Hrun).
  rewrite Hclip in Hrun.
  assert (Hpre : ~ In (DrivePermission fileId) (trace st1)).
  { rewrite Hl. destruct (checked_state_trace W st) as (a & b & ->).
    rewrite !in_app_iff. cbn [In]. intros [[H|H]|H].
    - contradiction.
    - destruct H as [H|[H|[H|[H|[]]]]]; discriminate.
    - rewrite Forall_forall in HP. apply HP in H. discriminate. }
  rewrite Hrun, drive_steps_run in *. cbv zeta in *.
  set (request := build_request W name _ _) in *.
  destruct (drive_files_create W request) as [data|e] eqn:Hc.
  2:{ cbn in Hin. rewrite !in_app_iff in Hin. cbn [In] in Hin.
      destruct Hin as [[[H|[H|[]]]|[H|[]]]|[H|[]]];
        [contradiction|discriminate|discriminate|discriminate]. }
  destruct (truthy_str (data_id data)) eqn:Hid.
  2:{ cbn in Hin. rewrite !in_app_iff in Hin. cbn [In] in Hin.
      destruct Hin as [[[H|[H|[]]]|[H|[]]]|[H|[]]];
        [contradiction|discriminate|discriminate|discriminate]. }
  destruct (truthy_str_some _ Hid) as [Hsome Hnonempty].
  assert (Hfile : fileId = str_of (data_id data)).
  { destruct (drive_permissions_create W _) as [[]|e];
      [destruct (truthy_str (data_webViewLink data));
       [destruct (clipboard_write_failure W)|]|];
      cbn in Hin; rewrite !in_app_iff in Hin; cbn [In] in Hin;
      repeat match type of Hin with
             | _ \/ _ => destruct Hin as [Hin|Hin]
             end;
      try contradiction; try discriminate; try (now destruct Hin);
      now injection Hin as <-. }
  exists request, data, (trace st1 ++ [Stdout (log_line W (clock_reads (tick st1))
                                   (js "Uploading file to Google Drive..."))]).
  assert (Hshape : forall rest,
            In (DrivePermission fileId)
               ([Stdout (log_line W (S (S (clock_reads st1)))
                           (js "File uploaded successfully."));
                 DrivePermission (str_of (data_id data))] ++ rest)).
  { intros rest. rewrite Hfile. right. now left. }
  destruct (drive_permissions_create W _) as [[]|e];
    [destruct (truthy_str (data_webViewLink data));
     [destruct (clipboard_write_failure W)|]|];
    eexists; (split; [reflexivity|]); (split; [exact Hc|]);
    (split; [now rewrite Hsome, <- Hfile|]);
    (split; [now rewrite Hfile|]);
    (split; [cbn; rewrite <- !app_assoc; cbn [app]; reflexivity
            | apply Hshape]).
Qed.

Lemma X16_witness :
  exists request data,
    drive_files_create (drive_world no_grant) request = Ok data /\
    data_id data = Some (js "1AbC").
Proof.
  destruct (X16_permission_only_for_created_file
              (drive_world no_grant) (stored_start (js "Hello")) (js "1AbC"))
    as (request & data & _ & _ & _ & Hc & Hid & _).
  - vm_compute. auto 20.
  - vm_compute. intros [].
  - exists request, data. split; [exact Hc | exact Hid].
Defined.

(** X17. When the file is created and shared but the answer of the
    create call holds no link, the permission has already been granted
    by the time the missing link is noticed: [uploadFile] logs the
    error and completes, and the clipboard keeps its content. *)
Theorem X17_missing_link_after_sharing
  (W : World) (st : State) (data : drive_data) :
  clipboard_read_failure W = None ->
  clipboard st <> [] ->
  (forall request,
     req_body request = modifyClipboardContent (clipboard st) ->
     drive_files_create W request = Ok data) ->
  truthy_str (data_id data) = true ->
  drive_permissions_create W (str_of (data_id data)) = Ok tt ->
  truthy_str (data_webViewLink data) = false ->
  fst (uploadFile W st) = Ret tt /\
  clipboard (snd (uploadFile W st)) = clipboard st /\
  In (DrivePermission (str_of (data_id data)))
     (trace (snd (uploadFile W st))) /\
  exists st',
    snd (uploadFile W st)
    = error_logged W
        (js "Error during file upload: " ++
         js "Failed to retrieve webViewLink for the uploaded file.") st'.
Proof.
  intros Hread Hclip Hc Hid Hp Hlink.
  destruct (uploadFile_to_drive_steps W st Hread Hclip)
    as (name & st1 & l & Hgen & Hd & Hcl & Hl & HP & Hrun).
  rewrite Hrun, drive_steps_run. cbv zeta.
  rewrite (Hc (build_request W name (date_parts (clock W (clock_reads st1)))
                 (modifyClipboardContent (clipboard st))) eq_refl),
    Hid, Hp, Hlink.
  split; [reflexivity|]. split; [exact Hcl|]. split.
  - cbn [snd trace error_logged logged add_event tick].
    rewrite !in_app_iff. cbn [In]. auto 10.
  - eexists. reflexivity.
Qed.

Lemma X17_witness :
  clipboard (snd (uploadFile linkless_world (stored_start (js "Hello"))))
  = js "Hello".
Proof.
  refine (proj1 (proj2
    (X17_missing_link_after_sharing
       linkless_world (stored_start (js "Hello"))
       (mkData (Some (js "1AbC")) None)
       eq_refl _ (fun _ _ => eq_refl) eq_refl eq_refl eq_refl))).
  discriminate.
Defined.

(* ------------------------------------------------------------------ *)
(** ** How the process ends *)





(* ------------------------------------------------------------------ *)
(** ** What each part leaves alone *)

Lemma authenticate_keeps_clipboard W st :
  clipboard (snd (authenticate W st)) = clipboard st.
Proof.
  assert (Hob : clipboard (snd (obtain_credentials W st)) = clipboard st).
  { destruct (obtain_credentials_cases W st)
      as [(text & record & _ & _ & Hok)|[Hno Hfresh]].
    { now rewrite Hok. }
    rewrite Hfresh, fresh_authorization_run.
    destruct (open_browser W _) as [u|e]; [|reflexivity].
    rewrite await_authorization_code_run.
    destruct (incoming_requests W) as [|r rest]; [reflexivity|].
    destruct (URL_searchParams W r REDIRECT_URI) as [qs|e]; [|reflexivity].
    destruct (truthy_str (searchParams_get qs (js "code"))); [|reflexivity].
    destruct (oauth_getToken W _) as [tokens|e]; [|reflexivity].
    cbv zeta. destruct (fs_write_failure W); reflexivity. }
  unfold authenticate, bind, when.
  destruct (obtain_credentials W st) as [[[]|e|c|e|] st1]; try exact Hob.
  destruct (ONLY_AUTH W); exact Hob.
Qed.

Lemma uploadFile_keeps_durable W st :
  durable (snd (uploadFile W st)) = durable st.
Proof.
  destruct (clipboard_read_failure W) as [e|] eqn:Hread.
  { now rewrite (uploadFile_unreadable W st e Hread). }
  destruct (clipboard st) as [|c0 t0] eqn:Hclip.
  { now rewrite (uploadFile_empty W st Hread Hclip). }
  assert (Hne : clipboard st <> []) by (rewrite Hclip; discriminate).
  destruct (uploadFile_to_drive_steps W st Hread Hne)
    as (name & st1 & l & Hgen & Hd & Hcl & Hl & HP & Hrun).
  rewrite Hrun, drive_steps_run. cbv zeta.
  destruct (drive_files_create W _) as [data|e]; [|exact Hd].
  destruct (truthy_str (data_id data)); [|exact Hd].
  destruct (drive_permissions_create W _) as [[]|e]; [|exact Hd].
  destruct (truthy_str (data_webViewLink data)); [|exact Hd].
  destruct (clipboard_write_failure W); exact Hd.
Qed.

(** X19. The two halves of the program keep to their own state:
    [authenticate] never changes the clipboard, however it ends, and
    [uploadFile] never changes the token file, the installed
    credentials or the listener; so in a run of [main] only
    [authenticate] touches the token file and only [uploadFile] the
    clipboard. *)
Theorem X19_authenticate_and_upload_keep_apart (W : World) (st : State) :
  clipboard (snd (authenticate W st)) = clipboard st /\
  token_file (snd (uploadFile W st)) = token_file st /\
  credentials (snd (uploadFile W st)) = credentials st /\
  server (snd (uploadFile W st)) = server st /\
  token_file (snd (main W st)) = token_file (snd (authenticate W st)).
Proof.
  split; [apply authenticate_keeps_clipboard|].
  pose proof (uploadFile_keeps_durable W st) as Hd.
  unfold durable in Hd. injection Hd as Ht Hc Hs _.
  split; [exact Ht|]. split; [exact Hc|]. split; [exact Hs|].
  unfold main, try_catch. unfold bind at 1.
  destruct (authenticate W st) as [[[]|e|c|e|] st1]; try reflexivity.
  pose proof (uploadFile_keeps_durable W st1) as Hd1.
  unfold durable in Hd1. injection Hd1 as Ht1 _ _ _.
  cbn [snd].
  destruct (uploadFile W st1) as [[[]|e|c|e|] st2]; cbn [snd] in *;
    exact Ht1.
Qed.
